(** * GoogleVissionLabeler: a shallow embedding of [object_detection.py]

    The script reads a table of photo URLs, asks Google Cloud Vision for the
    labels of every photo, flattens the answers into [label_i]/[score_i]
    columns, joins them onto the table and counts the label words.

    Python objects are modelled by the small universe [pyobj]; a [dict] is an
    insertion-ordered association list; the list object [self.df] lives in a
    heap of list objects; the outside world (HTTP, the Vision client) is a
    record of oracles that answer from the history of calls made so far, and
    every call and log record is appended to that history. *)

From Stdlib Require Import ZArith QArith Lqa String List Sorted Permutation.
From stdpp Require Import base list strings pretty gmap.

Local Open Scope Z_scope.

(** ** Python values *)

(** The exceptions the script can meet.  All of them are instances of
    [Exception], the class both handlers of the script name. *)
Inductive exn : Type :=
  | TypeError (msg : string)
  | KeyError (key : string)
  | IndexError (msg : string)
  | AttributeError (msg : string)
  | ValueError (msg : string)
  | RequestException (msg : string)
  | GoogleAPIError (msg : string).

(** A float is modelled by the rational it denotes; [PNaN] is the float
    pandas puts in an empty cell. *)
Inductive pyobj : Type :=
  | PStr (s : string)
  | PInt (n : Z)
  | PFloat (x : Q)
  | PNaN
  | PNone.

(** The result of evaluating an expression: a value or a raised exception. *)
Inductive outcome (A : Type) : Type :=
  | Ok (a : A)
  | Raise (e : exn).
Arguments Ok {A} a.
Arguments Raise {A} e.

#[global] Instance outcome_ret : MRet outcome := @Ok.
#[global] Instance outcome_bind : MBind outcome := fun A B f m =>
  match m with Ok a => f a | Raise e => Raise e end.

(** [try: body  except Exception as err: handler(err)] *)
Definition try_except {A} (body : outcome A) (handler : exn -> outcome A) : outcome A :=
  match body with Ok a => Ok a | Raise err => handler err end.

(** ** Strings *)

Fixpoint str_take (k : nat) (s : string) : string :=
  match k, s with
  | S k', String c s' => String c (str_take k' s')
  | _, _ => EmptyString
  end.

Fixpoint str_drop (k : nat) (s : string) : string :=
  match k, s with
  | S k', String _ s' => str_drop k' s'
  | _, _ => s
  end.

(** [s[:stop]] on a [str]: a negative bound counts from the end, and a bound
    outside the string is clamped, never an error. *)
Definition str_slice_to (s : string) (stop : Z) : string :=
  let n := Z.of_nat (String.length s) in
  let stop' := if stop <? 0 then Z.max 0 (stop + n) else Z.min stop n in
  str_take (Z.to_nat stop') s.

(** [len(o)] *)
Definition py_len (o : pyobj) : outcome Z :=
  match o with
  | PStr s => Ok (Z.of_nat (String.length s))
  | _ => Raise (TypeError "object has no len()")
  end.

(** [o[:stop]] *)
Definition py_slice_to (o : pyobj) (stop : Z) : outcome pyobj :=
  match o with
  | PStr s => Ok (PStr (str_slice_to s stop))
  | _ => Raise (TypeError "object is not subscriptable")
  end.

(** [o + t] for a [str] literal [t] *)
Definition py_add_str (o : pyobj) (t : string) : outcome pyobj :=
  match o with
  | PStr s => Ok (PStr (s +:+ t))
  | _ => Raise (TypeError "unsupported operand type(s) for +")
  end.

(** ** [get_url] *)

Definition get_url (url_sq : pyobj) : outcome pyobj :=
  try_except
    (n ← py_len url_sq;
     prefix ← py_slice_to url_sq (n - 6);
     py_add_str prefix ".jpg")
    (fun err => Ok (PStr "unknown")).

(** ** Dictionaries

    A Python [dict] keeps its keys in insertion order and [values()] lists
    the values in that order, which the word count depends on; so a
    dictionary is an association list without repeated keys. *)

Definition dict (V : Type) : Type := list (string * V).

(** [d[k] = v]: an existing key keeps its place, a new key goes last. *)
Fixpoint dict_setitem {V} (d : dict V) (k : string) (v : V) : dict V :=
  match d with
  | [] => [(k, v)]
  | (k', v') :: d' =>
      if String.eqb k' k then (k', v) :: d' else (k', v') :: dict_setitem d' k v
  end.

(** [d.get(k)] *)
Fixpoint dict_get {V} (d : dict V) (k : string) : option V :=
  match d with
  | [] => None
  | (k', v') :: d' => if String.eqb k' k then Some v' else dict_get d' k
  end.

Definition dict_keys {V} (d : dict V) : list string := map fst d.
Definition dict_values {V} (d : dict V) : list V := map snd d.

(** [{k: v for ...}], given the pairs the comprehension yields in order. *)
Definition dict_of_items {V} (items : list (string * V)) : dict V :=
  fold_left (fun d kv => dict_setitem d (fst kv) (snd kv)) items [].

(** [d.update(other)] *)
Definition dict_update {V} (d other : dict V) : dict V :=
  fold_left (fun d kv => dict_setitem d (fst kv) (snd kv)) other d.

(** [l[i]] on a list *)
Definition list_getitem {A} (l : list A) (i : nat) : outcome A :=
  match l !! i with
  | Some x => Ok x
  | None => Raise (IndexError "list index out of range")
  end.

(** ** Tables (pandas [DataFrame] with the default [RangeIndex])

    The index label of a row is its position. *)

Record DataFrame : Type := { columns : list string; rows : list (list pyobj) }.

(** [df[col]]: the cells of a column, top to bottom. *)
Fixpoint column_index (col : string) (cols : list string) : option nat :=
  match cols with
  | [] => None
  | c :: cols' => if String.eqb c col then Some 0%nat else S <$> column_index col cols'
  end.

Definition DataFrame_getitem (t : DataFrame) (col : string) : outcome (list pyobj) :=
  match column_index col (columns t) with
  | Some j => Ok (map (fun r => default PNaN (r !! j)) (rows t))
  | None => Raise (KeyError col)
  end.

(** [pd.DataFrame(data)] for a list of dicts: one row per dict, the columns
    are the keys in order of first appearance, a missing key gives NaN. *)
Definition add_columns (cols keys : list string) : list string :=
  fold_left (fun cs k => if existsb (String.eqb k) cs then cs else cs ++ [k]) keys cols.

Definition DataFrame_of_records (data : list (dict pyobj)) : DataFrame :=
  let cols := fold_left (fun cs d => add_columns cs (dict_keys d)) data [] in
  {| columns := cols;
     rows := map (fun d => map (fun c => default PNaN (dict_get d c)) cols) data |}.

(** [left.join(right)]: a left join on the index.  pandas refuses to join
    two tables that share a column name when no suffix is given. *)
Definition DataFrame_join (left right : DataFrame) : outcome DataFrame :=
  if existsb (fun c => existsb (String.eqb c) (columns right)) (columns left)
  then Raise (ValueError "columns overlap but no suffix specified")
  else Ok {| columns := columns left ++ columns right;
             rows := imap (fun i r =>
                       r ++ default (replicate (length (columns right)) PNaN)
                                    (rows right !! i))
                     (rows left) |}.

(** ** The outside world *)

Record Response : Type := { status_code : Z; content : list Byte.byte }.
Record Image : Type := { image_content : list Byte.byte }.
Record EntityAnnotation : Type := { description : string; score : Q }.
Record AnnotateImageResponse : Type :=
  { label_annotations : list EntityAnnotation }.

(** What the script does to the outside, in the order it does it. *)
Inductive event : Type :=
  | HttpGet (photo_url : pyobj)
  | LabelDetection (image : option Image)
  | LogErrorRetrieving (photo_url : pyobj) (err : exn)
  | LogErrorExtracting (err : exn)
  | LogInfoLabeling (n_photos : Z) (cost : Q)
  | ToCsv (output_path : string) (table : DataFrame).

(** The external calls answer from the history of events so far. *)
Record World : Type := {
  requests_get : list event -> pyobj -> outcome Response;
  types_Image : list Byte.byte -> outcome Image;
  client_label_detection : list event -> option Image -> outcome AnnotateImageResponse
}.

(** ** Interpreter state and the monad of statements *)

Definition loc : Type := positive.

Record state : Type := {
  trace : list event;
  heap : gmap loc (list (dict pyobj))
}.

Definition Py (A : Type) : Type := state -> outcome A * state.

#[global] Instance Py_ret : MRet Py := fun A a s => (Ok a, s).
#[global] Instance Py_bind : MBind Py := fun A B f m s =>
  match m s with
  | (Ok a, s') => f a s'
  | (Raise e, s') => (Raise e, s')
  end.

Definition lift {A} (o : outcome A) : Py A := fun s => (o, s).

(** [try: body  except Exception as err: handler], with effects. *)
Definition py_try {A} (body : Py A) (handler : exn -> Py A) : Py A := fun s =>
  match body s with
  | (Ok a, s') => (Ok a, s')
  | (Raise err, s') => handler err s'
  end.

Definition emit (ev : event) : Py unit := fun s =>
  (Ok tt, {| trace := trace s ++ [ev]; heap := heap s |}).

(** [for x in l: body(x)] *)
Fixpoint py_for {A} (l : list A) (body : A -> Py unit) : Py unit :=
  match l with
  | [] => mret tt
  | x :: l' => body x ≫= fun _ => py_for l' body
  end.

(** [[f(x) for x in l]] *)
Fixpoint py_listcomp {A B} (f : A -> Py B) (l : list A) : Py (list B) :=
  match l with
  | [] => mret []
  | x :: l' => y ← f x; ys ← py_listcomp f l'; mret (y :: ys)
  end.

(** A fresh empty list object, [[]]. *)
Definition new_list : Py loc := fun s =>
  let l := fresh (dom (heap s)) in
  (Ok l, {| trace := trace s; heap := <[l := []]> (heap s) |}).

(** The elements of the list object at [l]. *)
Definition list_read (l : loc) : Py (list (dict pyobj)) := fun s =>
  match heap s !! l with
  | Some xs => (Ok xs, s)
  | None => (Raise (AttributeError "no such object"), s)
  end.

(** [l.append(x)]: the list object is changed in place. *)
Definition list_append (l : loc) (x : dict pyobj) : Py unit := fun s =>
  match heap s !! l with
  | Some xs => (Ok tt, {| trace := trace s; heap := <[l := xs ++ [x]]> (heap s) |})
  | None => (Raise (AttributeError "no such object"), s)
  end.

(** ** [ImageLabeler] *)

Module ImageLabeler.
Section Methods.

(** [self.client] and the network. *)
Variable W : World.

Definition call_requests_get (photo_url : pyobj) : Py Response := fun s =>
  (requests_get W (trace s) photo_url,
   {| trace := trace s ++ [HttpGet photo_url]; heap := heap s |}).

Definition call_label_detection (image : option Image) : Py AnnotateImageResponse :=
  fun s =>
    (client_label_detection W (trace s) image,
     {| trace := trace s ++ [LabelDetection image]; heap := heap s |}).

Definition _load_image (photo_url : pyobj) : Py (option Image) :=
  py_try
    (response ← call_requests_get photo_url;
     (* BytesIO(response.content).read() gives the same bytes back *)
     let content := content response in
     image ← lift (types_Image W content);
     mret (Some image))
    (fun err =>
       emit (LogErrorRetrieving photo_url err) ≫= fun _ =>
       mret None).

Definition get_label_from_image (photo_url : pyobj) : Py (list EntityAnnotation) :=
  image ← _load_image photo_url;
  py_try
    (response ← call_label_detection image;
     mret (label_annotations response))
    (fun err =>
       emit (LogErrorExtracting err) ≫= fun _ =>
       mret []).

End Methods.
End ImageLabeler.

(** ** [DfLabeler] *)

Module DfLabeler.

(** The attributes of an instance; [df] is a reference to a list object. *)
Record t : Type := {
  data_df : DataFrame;
  urls : list pyobj;
  df : loc;
  labels : list (list EntityAnnotation)
}.

(** [__init__], given the table [pd.read_csv(data_csv)] has read. *)
Definition __init__ (data : DataFrame) (url_col : string) (url_sq : bool) : Py t :=
  col ← lift (DataFrame_getitem data url_col);
  us ← (if url_sq then lift (mapM get_url col) else mret col);
  l ← new_list;
  mret {| data_df := data; urls := us; df := l; labels := [] |}.

(** [len(self.urls) // 1000 * 1.5]: the product of an integer below 2^52
    with 1.5 is exact in binary floating point. *)
Definition estimated_cost (n_urls : Z) : Q := inject_Z (n_urls / 1000) * (3 # 2).

(** [tqdm] only draws a progress bar around the iteration. *)
Definition get_labels_from_df (W : World) (self : t)
  : Py (t * list (list EntityAnnotation)) :=
  let cost := estimated_cost (Z.of_nat (length (urls self))) in
  _ ← emit (LogInfoLabeling (Z.of_nat (length (urls self))) cost);
  ls ← py_listcomp (ImageLabeler.get_label_from_image W) (urls self);
  mret ({| data_df := data_df self; urls := urls self; df := df self; labels := ls |},
        ls).

(** The body of the loop of [store_labels], up to the [append]. *)
Definition label_row (photos : list EntityAnnotation) : outcome (dict pyobj) :=
  let label_list := map description photos in
  let scores := map score photos in
  label_items ← mapM (fun i => v ← list_getitem label_list i;
                               mret ("label_" +:+ pretty (i + 1)%nat, PStr v))
                     (seq 0 (length label_list));
  score_items ← mapM (fun i => v ← list_getitem scores i;
                               mret ("score_" +:+ pretty (i + 1)%nat, PFloat v))
                     (seq 0 (length scores));
  let label_cols := dict_of_items label_items in
  let score_cols := dict_of_items score_items in
  mret (dict_update label_cols score_cols).

(** Returns [self.df], the list object itself. *)
Definition store_labels (self : t) (labels : list (list EntityAnnotation)) : Py loc :=
  _ ← py_for labels (fun photos =>
         label_cols ← lift (label_row photos);
         list_append (df self) label_cols);
  mret (df self).

(** [df] is a reference to a list of dicts; the joined table goes to
    [output_path]. *)
Definition update_data_df (self : t) (df : loc) (output_path : string) : Py unit :=
  records ← list_read df;
  let new_df := DataFrame_of_records records in
  a ← lift (DataFrame_join (data_df self) new_df);
  emit (ToCsv output_path a).

(** [Counter(words)]: a dict from word to count, in order of first sight. *)
Definition counter_step (c : dict Z) (elem : string) : dict Z :=
  dict_setitem c elem (default 0 (dict_get c elem) + 1).

Definition Counter (words : list string) : dict Z :=
  fold_left counter_step words [].

(** [sorted(items, key=itemgetter(1), reverse=True)]: by count, largest
    first; the sort is stable, so equal counts keep their order. *)
Fixpoint insert_by_count (x : string * Z) (l : list (string * Z)) : list (string * Z) :=
  match l with
  | [] => [x]
  | y :: l' => if snd y <=? snd x then x :: y :: l' else y :: insert_by_count x l'
  end.

Definition most_common (c : dict Z) : list (string * Z) :=
  fold_right insert_by_count [] c.

(** [[elm for elm in vals if isinstance(elm, str)]] *)
Definition str_elements (vals : list pyobj) : list string :=
  omap (fun elm => match elm with PStr w => Some w | _ => None end) vals.

Definition all_words (records : list (dict pyobj)) : list string :=
  fold_left (fun acc i => acc ++ str_elements (dict_values i)) records [].

Definition get_label_counts (self : t) (output_path : string) : Py DataFrame :=
  records ← list_read (df self);
  let new_vals := most_common (Counter (all_words records)) in
  let word_list :=
    map (fun xy => dict_setitem (dict_setitem [] "word" (PStr (fst xy)))
                                "count" (PInt (snd xy))) new_vals in
  let word_df := DataFrame_of_records word_list in
  _ ← emit (ToCsv output_path word_df);
  mret word_df.

End DfLabeler.

(** The script run as a program, over the table its CSV file holds. *)
Definition main (W : World) (data : DataFrame) : Py DataFrame :=
  lab ← DfLabeler.__init__ data "url_sq" true;
  r ← DfLabeler.get_labels_from_df W lab;
  df ← DfLabeler.store_labels (fst r) (snd r);
  _ ← DfLabeler.update_data_df (fst r) df "data/maarten_labeled.csv";
  DfLabeler.get_label_counts (fst r) "data/maarten_words.csv".

(** ** Closed forms used in the statements below *)

Definition label_key (i : nat) : string := "label_" +:+ pretty i.
Definition score_key (i : nat) : string := "score_" +:+ pretty i.

(** The row [store_labels] appends for one label result, written out. *)
Definition flat_row (photos : list EntityAnnotation) : dict pyobj :=
  imap (fun i photo => (label_key (i + 1), PStr (description photo))) photos ++
  imap (fun i photo => (score_key (i + 1), PFloat (score photo))) photos.

(** The sum of the counts of a word table, and the table row of an entry. *)
Definition total_count (tbl : list (string * Z)) : Z :=
  fold_right Z.add 0 (map snd tbl).

Definition word_row (xy : string * Z) : list pyobj := [PStr (fst xy); PInt (snd xy)].

(** The number of times [w] occurs in a list of words. *)
Definition occurrences (w : string) (words : list string) : Z :=
  Z.of_nat (count_occ string_dec words w).

(** Descending order of count, as [most_common] leaves the entries. *)
Definition count_ge (x y : string * Z) : Prop := snd y <= snd x.

(** The string values of a row, in the order [values()] lists them. *)
Definition row_words (d : dict pyobj) : list string :=
  DfLabeler.str_elements (dict_values d).

(** What [get_url] makes of a cell, written out. *)
Definition normalized_url (cell : pyobj) : pyobj :=
  match cell with
  | PStr s => PStr (str_slice_to s (Z.of_nat (String.length s) - 6) +:+ ".jpg")
  | _ => PStr "unknown"
  end.

(** The state after more events, the heap as it was. *)
Definition add_events (s : state) (evs : list event) : state :=
  {| trace := trace s ++ evs; heap := heap s |}.

(** The calls to the outside among the events, log records left out. *)
Definition is_call (ev : event) : bool :=
  match ev with HttpGet _ | LabelDetection _ => true | _ => false end.

Definition external_calls (evs : list event) : list event := List.filter is_call evs.

(** [labelled_in_order W urls s results s']: starting in [s], the URLs are
    labelled one after the other, each from the state its predecessor left,
    with [results] in the order of the URLs and [s'] the state at the end. *)
Inductive labelled_in_order (W : World)
  : list pyobj -> state -> list (list EntityAnnotation) -> state -> Prop :=
  | labelled_nil s : labelled_in_order W [] s [] s
  | labelled_cons url urls s r s1 rs s2 :
      ImageLabeler.get_label_from_image W url s = (Ok r, s1) ->
      labelled_in_order W urls s1 rs s2 ->
      labelled_in_order W (url :: urls) s (r :: rs) s2.

(** ** Sample data *)

Module Examples.

Definition dog : EntityAnnotation := {| description := "dog"; score := 9 # 10 |}.
Definition dog' : EntityAnnotation := {| description := "dog"; score := 8 # 10 |}.
Definition cat : EntityAnnotation := {| description := "cat"; score := 7 # 10 |}.

Definition photos_csv : DataFrame :=
  {| columns := ["id"; "url_sq"];
     rows := [[PInt 1; PStr "http://x/abc_s.jpg"]; [PInt 2; PStr "http://x/def_s.jpg"]] |}.

(** A labeler as [__init__] leaves it, and the state it then lives in. *)
Definition lab : DfLabeler.t :=
  {| DfLabeler.data_df := photos_csv;
     DfLabeler.urls := [PStr "http://x/abc.jpg"; PStr "http://x/def.jpg"];
     DfLabeler.df := 1%positive;
     DfLabeler.labels := [] |}.

Definition fresh_state : state := {| trace := []; heap := {[ 1%positive := [] ]} |}.

Definition with_rows (records : list (dict pyobj)) : state :=
  {| trace := []; heap := {[ 1%positive := records ]} |}.

(** Two flattened rows that carry "dog" once each. *)
Definition dog_rows : list (dict pyobj) :=
  [ [("label_1", PStr "dog"); ("score_1", PFloat (9 # 10))];
    [("label_1", PStr "cat"); ("label_2", PStr "dog");
     ("score_1", PFloat (7 # 10)); ("score_2", PFloat (8 # 10))] ].

(** A labeler over [n] rows. *)
Definition lab_of (n : nat) : DfLabeler.t :=
  {| DfLabeler.data_df :=
       {| columns := ["url"]; rows := replicate n [PStr "http://x/abc.jpg"] |};
     DfLabeler.urls := replicate n (PStr "http://x/abc.jpg");
     DfLabeler.df := 1%positive;
     DfLabeler.labels := [] |}.

(** A labeler over a table that already has a [label_1] column. *)
Definition relabel : DfLabeler.t :=
  {| DfLabeler.data_df :=
       {| columns := ["url"; "label_1"];
          rows := [[PStr "http://x/abc.jpg"; PStr "cat"]] |};
     DfLabeler.urls := [PStr "http://x/abc.jpg"];
     DfLabeler.df := 1%positive;
     DfLabeler.labels := [] |}.

(** A world in which every download answers 404 with a short body, every
    body wraps, and the classifier knows dogs only. *)
Definition world : World :=
  {| requests_get := fun _ _ => Ok {| status_code := 404; content := [Byte.x00] |};
     types_Image := fun body => Ok {| image_content := body |};
     client_label_detection := fun _ _ => Ok {| label_annotations := [dog] |} |}.

(** A world in which nothing works. *)
Definition offline : World :=
  {| requests_get := fun _ _ => Raise (RequestException "connection refused");
     types_Image := fun body => Ok {| image_content := body |};
     client_label_detection := fun _ _ => Raise (GoogleAPIError "bad image data") |}.

End Examples.

(** * Properties *)

Section Strings.

Lemma str_take_drop k s : str_take k s +:+ str_drop k s = s.
Proof.
  revert s; induction k as [|k IH]; intros [|c s]; simpl; try reflexivity.
  change (String c (str_take k s +:+ str_drop k s) = String c s).
  now rewrite IH.
Qed.

Lemma str_drop_length k s :
  String.length (str_drop k s) = (String.length s - k)%nat.
Proof.
  revert s; induction k as [|k IH]; intros [|c s]; simpl; auto with arith.
Qed.

Lemma str_slice_to_take s stop :
  let n := String.length s in
  stop = Z.of_nat n - 6 ->
  str_slice_to s stop =
    str_take (if (6 <=? n)%nat then n - 6 else 2 * n - 6)%nat s.
Proof.
  intros n ->. unfold str_slice_to. fold n. f_equal.
  destruct (Nat.leb_spec 6 n); destruct (Z.ltb_spec (Z.of_nat n - 6) 0); lia.
Qed.

End Strings.

(** ** The URL normalizer *)

Lemma get_url_str s :
  get_url (PStr s) =
    Ok (PStr (str_slice_to s (Z.of_nat (String.length s) - 6) +:+ ".jpg")).
Proof. reflexivity. Qed.

Lemma get_url_non_str o :
  (forall s, o <> PStr s) -> get_url o = Ok (PStr "unknown").
Proof. destruct o; intros Hns; try reflexivity. now destruct (Hns s). Qed.

Lemma app_jpg_not_unknown p : p +:+ ".jpg" <> "unknown".
Proof.
  destruct p as [|c1 [|c2 [|c3 [|c4 [|c5 [|c6 [|c7 [|c8 p]]]]]]]];
    intros E; cbv beta iota delta [String.app] in E; discriminate E.
Qed.

Example get_url_flickr :
  get_url (PStr "http://x/abc_s.jpg") = Ok (PStr "http://x/abc.jpg").
Proof. reflexivity. Qed.

(** C1 (counterexample): a five-character string is shorter than six
    characters, yet [get_url] answers its first four characters followed by
    ".jpg", not "unknown"; the same happens for the empty string. *)
Lemma get_url_short_not_unknown :
  (String.length "abcde" < 6)%nat /\
  get_url (PStr "abcde") = Ok (PStr "abcd.jpg") /\
  get_url (PStr "abcde") <> Ok (PStr "unknown") /\
  get_url (PStr "") = Ok (PStr ".jpg").
Proof. repeat split; simpl; try lia; try reflexivity; discriminate. Qed.

(** C1 (amended): for every string [s] of length [n], [get_url] removes the
    last 6 characters when [n >= 6], and the last [min n (6 - n)] characters
    when [n < 6], and appends ".jpg" to what is left; the thumbnail URL
    "http://x/abc_s.jpg" becomes "http://x/abc.jpg". *)
Theorem get_url_spec :
  (forall s : string,
     let n := String.length s in
     exists p suf,
       s = p +:+ suf /\
       String.length suf = (if (6 <=? n)%nat then 6 else Nat.min n (6 - n))%nat /\
       get_url (PStr s) = Ok (PStr (p +:+ ".jpg"))) /\
  get_url (PStr "http://x/abc_s.jpg") = Ok (PStr "http://x/abc.jpg").
Proof.
  split; [|reflexivity].
  intros s n.
  set (k := (if (6 <=? n)%nat then n - 6 else 2 * n - 6)%nat).
  exists (str_take k s), (str_drop k s).
  split; [symmetry; apply str_take_drop|]. split.
  - rewrite str_drop_length. fold n. subst k.
    destruct (Nat.leb_spec 6 n); lia.
  - rewrite get_url_str. now rewrite (str_slice_to_take s _ eq_refl).
Qed.

(** C9: on a string of any length [get_url] answers a string that ends in
    ".jpg"; it answers "unknown" exactly on the inputs that are not
    strings, [None] among them, and it never raises. *)
Theorem get_url_unknown_iff_not_str :
  (forall s : string, exists p, get_url (PStr s) = Ok (PStr (p +:+ ".jpg"))) /\
  (forall o : pyobj, get_url o = Ok (PStr "unknown") <-> forall s, o <> PStr s) /\
  get_url (PStr "") = Ok (PStr ".jpg") /\
  get_url PNone = Ok (PStr "unknown") /\
  (forall o : pyobj, exists u, get_url o = Ok (PStr u)).
Proof.
  split; [|split; [|split; [|split]]]; try reflexivity.
  - intros s. eexists. apply get_url_str.
  - intros o; split.
    + intros E s ->. rewrite get_url_str in E.
      injection E as E. now apply app_jpg_not_unknown in E.
    + apply get_url_non_str.
  - intros o. destruct o; eexists; reflexivity.
Qed.

(** ** Dictionaries *)

Section Dicts.
Context {V : Type}.
Implicit Types (d : dict V) (k : string) (v : V).

Lemma dict_setitem_fresh d k v :
  k ∉ dict_keys d -> dict_setitem d k v = d ++ [(k, v)].
Proof.
  induction d as [|[k' v'] d IH]; simpl; intros Hk; [reflexivity|].
  apply not_elem_of_cons in Hk as [Hne Hk].
  destruct (String.eqb_spec k' k) as [->|_]; [congruence|].
  now rewrite IH.
Qed.

Lemma dict_update_fresh d other :
  NoDup (dict_keys d ++ dict_keys other) -> dict_update d other = d ++ other.
Proof.
  unfold dict_update. revert d.
  induction other as [|[k v] other IH]; intros d Hnd; simpl.
  - now rewrite app_nil_r.
  - simpl in Hnd. apply NoDup_app in Hnd as (Hd & Hdis & Ho).
    apply NoDup_cons in Ho as [Hk Ho].
    rewrite dict_setitem_fresh by (intros Hin; apply (Hdis _ Hin); left).
    rewrite IH, <- app_assoc; [reflexivity|].
    unfold dict_keys. rewrite map_app. simpl. rewrite <- app_assoc. simpl.
    apply NoDup_app. split; [assumption|]. split; [|now apply NoDup_cons].
    intros x Hx. apply Hdis, Hx.
Qed.

Lemma dict_of_items_fresh (items : list (string * V)) :
  NoDup (map fst items) -> dict_of_items items = items.
Proof. intros Hnd. apply (dict_update_fresh [] items). exact Hnd. Qed.

Lemma dict_get_elem d k v :
  NoDup (dict_keys d) -> (k, v) ∈ d -> dict_get d k = Some v.
Proof.
  induction d as [|[k' v'] d IH]; simpl; intros Hnd Hin.
  - now apply elem_of_nil in Hin.
  - apply NoDup_cons in Hnd as [Hk' Hnd].
    apply elem_of_cons in Hin as [E|Hin].
    + injection E as -> ->. now rewrite String.eqb_refl.
    + destruct (String.eqb_spec k' k) as [->|_]; [|now apply IH].
      destruct Hk'. apply list_elem_of_fmap. now exists (k, v).
Qed.

Lemma dict_get_None d k : k ∉ dict_keys d -> dict_get d k = None.
Proof.
  induction d as [|[k' v'] d IH]; simpl; intros Hk; [reflexivity|].
  apply not_elem_of_cons in Hk as [Hne Hk].
  destruct (String.eqb_spec k' k) as [->|_]; [congruence|auto].
Qed.

End Dicts.

(** ** Flattening one label result *)

Section LabelRow.
Import DfLabeler.

Lemma mapM_getitem_from {A B} (g : nat -> A -> B) (pre l : list A) :
  mapM (M := outcome)
       (fun i => v ← list_getitem (pre ++ l) i; mret (g i v))
       (seq (length pre) (length l))
  = Ok (imap (fun i => g (length pre + i)%nat) l).
Proof.
  revert pre. induction l as [|x l IH]; intros pre; [reflexivity|].
  cbn [length seq mapM].
  assert (Hx : list_getitem (pre ++ x :: l) (length pre) = Ok x)
    by (unfold list_getitem; now rewrite list_lookup_middle).
  specialize (IH (pre ++ [x])).
  rewrite <- app_assoc, length_app in IH. simpl in IH.
  rewrite Nat.add_1_r in IH.
  rewrite Hx, IH. unfold mbind, outcome_bind, mret, outcome_ret.
  cbn [imap]. do 2 f_equal.
  - now rewrite Nat.add_0_r.
  - apply imap_ext. intros i y _. simpl. f_equal. lia.
Qed.

Lemma mapM_getitem {A B} (g : nat -> A -> B) (l : list A) :
  mapM (M := outcome)
       (fun i => v ← list_getitem l i; mret (g i v))
       (seq 0 (length l))
  = Ok (imap g l).
Proof. exact (mapM_getitem_from g [] l). Qed.

Lemma label_key_inj : Inj (=) (=) label_key.
Proof.
  intros i j E. unfold label_key in E.
  cbv beta iota delta [String.app] in E. injection E as E.
  now apply (inj pretty) in E.
Qed.

Lemma score_key_inj : Inj (=) (=) score_key.
Proof.
  intros i j E. unfold score_key in E.
  cbv beta iota delta [String.app] in E. injection E as E.
  now apply (inj pretty) in E.
Qed.

Lemma label_key_not_score i j : label_key i <> score_key j.
Proof.
  unfold label_key, score_key. cbv beta iota delta [String.app].
  discriminate.
Qed.

Lemma imap_pair_keys {A B} (f : nat -> string) (g : A -> B) (l : list A) :
  map fst (imap (fun i x => (f (i + 1)%nat, g x)) l) = map f (seq 1 (length l)).
Proof.
  revert f. induction l as [|x l IH]; intros f; [reflexivity|].
  cbn [imap length seq map fst]. f_equal.
  rewrite <- seq_shift, map_map. rewrite <- (IH (fun i => f (S i))).
  f_equal.
Qed.

Lemma imap_pair_lookup {A B} (f : nat -> string) (g : A -> B) (l : list A) i x :
  l !! i = Some x -> (f (i + 1)%nat, g x) ∈ imap (fun i x => (f (i + 1)%nat, g x)) l.
Proof.
  intros Hi. apply list_elem_of_lookup. exists i.
  now rewrite list_lookup_imap, Hi.
Qed.

Lemma flat_row_keys photos :
  dict_keys (flat_row photos) =
    map label_key (seq 1 (length photos)) ++ map score_key (seq 1 (length photos)).
Proof.
  unfold dict_keys, flat_row. rewrite map_app.
  now rewrite (imap_pair_keys label_key), (imap_pair_keys score_key).
Qed.

Lemma flat_row_NoDup photos : NoDup (dict_keys (flat_row photos)).
Proof.
  rewrite flat_row_keys. apply NoDup_app. split; [|split].
  - apply (NoDup_fmap_2 _), NoDup_seq.
  - intros k Hl Hs.
    apply list_elem_of_fmap in Hl as (i & -> & _).
    apply list_elem_of_fmap in Hs as (j & E & _).
    exact (label_key_not_score _ _ E).
  - apply (NoDup_fmap_2 _), NoDup_seq.
Qed.

Lemma label_row_flat photos : label_row photos = Ok (flat_row photos).
Proof.
  pose proof (flat_row_NoDup photos) as Hnd.
  unfold dict_keys, flat_row in Hnd. rewrite map_app in Hnd.
  pose proof Hnd as (Hl & _ & Hs)%NoDup_app.
  unfold label_row. cbv zeta.
  rewrite (mapM_getitem (fun i v => ("label_" +:+ pretty (i + 1)%nat, PStr v))).
  rewrite (mapM_getitem (fun i v => ("score_" +:+ pretty (i + 1)%nat, PFloat v))).
  unfold mbind, outcome_bind, mret, outcome_ret. f_equal.
  change (map description photos) with (description <$> photos).
  change (map score photos) with (score <$> photos).
  rewrite !imap_fmap. unfold compose.
  change (fun (n : nat) (x : EntityAnnotation) =>
            ("label_" +:+ pretty (n + 1)%nat, PStr (description x)))
    with (fun (i : nat) (photo : EntityAnnotation) =>
            (label_key (i + 1), PStr (description photo))).
  change (fun (n : nat) (x : EntityAnnotation) =>
            ("score_" +:+ pretty (n + 1)%nat, PFloat (score x)))
    with (fun (i : nat) (photo : EntityAnnotation) =>
            (score_key (i + 1), PFloat (score photo))).
  rewrite !dict_of_items_fresh by assumption.
  now rewrite dict_update_fresh.
Qed.

Lemma flat_row_get photos i photo :
  photos !! i = Some photo ->
  dict_get (flat_row photos) (label_key (i + 1)) = Some (PStr (description photo)) /\
  dict_get (flat_row photos) (score_key (i + 1)) = Some (PFloat (score photo)).
Proof.
  intros Hi. split; apply dict_get_elem; try apply flat_row_NoDup;
    unfold flat_row; apply elem_of_app; [left|right].
  - exact (imap_pair_lookup label_key (fun p => PStr (description p)) _ _ _ Hi).
  - exact (imap_pair_lookup score_key (fun p => PFloat (score p)) _ _ _ Hi).
Qed.

End LabelRow.

(** ** [store_labels] *)

Section StoreLabels.
Import DfLabeler.

Lemma list_append_run l x s xs :
  heap s !! l = Some xs ->
  list_append l x s =
    (Ok tt, {| trace := trace s; heap := <[l := xs ++ [x]]> (heap s) |}).
Proof. intros Hl. unfold list_append. now rewrite Hl. Qed.

Lemma store_labels_loop l labels s rows0 :
  heap s !! l = Some rows0 ->
  py_for labels (fun photos =>
      label_cols ← lift (label_row photos); list_append l label_cols) s =
    (Ok tt, {| trace := trace s;
               heap := <[l := rows0 ++ map flat_row labels]> (heap s) |}).
Proof.
  revert s rows0. induction labels as [|photos labels IH]; intros s rows0 Hl.
  - simpl. rewrite app_nil_r, insert_id by assumption. now destruct s.
  - cbn [py_for map]. unfold mbind at 1, Py_bind at 1.
    unfold mbind at 1, Py_bind at 1, lift at 1.
    rewrite label_row_flat, (list_append_run _ _ _ _ Hl).
    rewrite (IH _ (rows0 ++ [flat_row photos])) by apply lookup_insert_eq.
    cbn [trace heap]. now rewrite insert_insert_eq, <- app_assoc.
Qed.

Lemma store_labels_run self labels s rows0 :
  heap s !! df self = Some rows0 ->
  store_labels self labels s =
    (Ok (df self),
     {| trace := trace s;
        heap := <[df self := rows0 ++ map flat_row labels]> (heap s) |}).
Proof.
  intros Hl. unfold store_labels. unfold mbind at 1, Py_bind at 1.
  rewrite (store_labels_loop _ _ _ _ Hl). reflexivity.
Qed.

End StoreLabels.

(** C2: [store_labels] never raises; it appends one row per label result to
    the list [self.df] and returns that list.  The row of a label result of
    length [n] has exactly the keys [label_1 .. label_n, score_1 .. score_n],
    each once; [label_i] holds the [i]-th description and [score_i] the
    [i]-th score; the row of an empty label result is the empty mapping. *)
Theorem store_labels_rows :
  forall (self : DfLabeler.t) (labels : list (list EntityAnnotation))
         (s : state) (rows0 : list (dict pyobj)),
    heap s !! DfLabeler.df self = Some rows0 ->
    exists (new : list (dict pyobj)) (s' : state),
      DfLabeler.store_labels self labels s = (Ok (DfLabeler.df self), s') /\
      heap s' !! DfLabeler.df self = Some (rows0 ++ new) /\
      length new = length labels /\
      forall (r : nat) (photos : list EntityAnnotation),
        labels !! r = Some photos ->
        exists d : dict pyobj,
          new !! r = Some d /\
          dict_keys d = map label_key (seq 1 (length photos)) ++
                        map score_key (seq 1 (length photos)) /\
          NoDup (dict_keys d) /\
          (forall (i : nat) (photo : EntityAnnotation),
             photos !! i = Some photo ->
             dict_get d (label_key (i + 1)) = Some (PStr (description photo)) /\
             dict_get d (score_key (i + 1)) = Some (PFloat (score photo))) /\
          (forall k, k ∉ dict_keys d -> dict_get d k = None) /\
          (photos = [] -> d = []).
Proof.
  intros self labels s rows0 Hl.
  exists (map flat_row labels). eexists. split; [exact (store_labels_run _ _ _ _ Hl)|].
  cbn [heap]. split; [apply lookup_insert_eq|]. split; [apply length_map|].
  intros r photos Hr. exists (flat_row photos).
  split; [change (map flat_row labels) with (flat_row <$> labels);
          now rewrite list_lookup_fmap, Hr|].
  split; [apply flat_row_keys|]. split; [apply flat_row_NoDup|].
  split; [intros i photo; apply flat_row_get|].
  split; [intros k; apply dict_get_None|].
  now intros ->.
Qed.

(** ** Counting words *)

Section WordCounts.
Import DfLabeler.

Lemma dict_get_setitem {V} (d : dict V) k v k' :
  dict_get (dict_setitem d k v) k' = if String.eqb k k' then Some v else dict_get d k'.
Proof.
  induction d as [|[k0 v0] d IH]; simpl.
  - destruct (String.eqb_spec k k'); reflexivity.
  - destruct (String.eqb_spec k0 k) as [->|Hne]; simpl.
    + destruct (String.eqb_spec k k'); reflexivity.
    + rewrite IH. destruct (String.eqb_spec k0 k') as [->|]; [|reflexivity].
      destruct (String.eqb_spec k k'); [congruence|reflexivity].
Qed.

Lemma dict_keys_setitem {V} (d : dict V) k v :
  dict_keys (dict_setitem d k v) =
    if bool_decide (k ∈ dict_keys d) then dict_keys d else dict_keys d ++ [k].
Proof.
  induction d as [|[k0 v0] d IH]; simpl; [reflexivity|].
  destruct (String.eqb_spec k0 k) as [->|Hne]; simpl.
  - rewrite bool_decide_eq_true_2 by left. reflexivity.
  - rewrite IH. destruct (bool_decide_reflect (k ∈ dict_keys d)) as [Hin|Hnin].
    + rewrite bool_decide_eq_true_2 by now right. reflexivity.
    + rewrite bool_decide_eq_false_2; [reflexivity|].
      intros [E|Hin]%elem_of_cons; congruence.
Qed.

Lemma dict_setitem_NoDup {V} (d : dict V) k v :
  NoDup (dict_keys d) -> NoDup (dict_keys (dict_setitem d k v)).
Proof.
  intros Hnd. rewrite dict_keys_setitem.
  destruct (bool_decide_reflect (k ∈ dict_keys d)); [assumption|].
  apply NoDup_app. split; [assumption|]. split; [|apply NoDup_singleton].
  intros x Hx ->%list_elem_of_singleton. contradiction.
Qed.

Lemma total_count_setitem (c : dict Z) w v :
  total_count (dict_setitem c w v) = total_count c - default 0 (dict_get c w) + v.
Proof.
  unfold total_count.
  induction c as [|[k0 v0] c IH]; simpl; [lia|].
  destruct (String.eqb_spec k0 w) as [->|Hne]; simpl; [lia|].
  rewrite IH. lia.
Qed.

Lemma total_count_step (c : dict Z) w :
  total_count (counter_step c w) = total_count c + 1.
Proof. unfold counter_step. rewrite total_count_setitem. lia. Qed.

(** What [Counter] has after more words are counted into [c]. *)
Lemma counter_fold words : forall c : dict Z,
  NoDup (dict_keys c) ->
  let c' := fold_left counter_step words c in
  NoDup (dict_keys c') /\
  total_count c' = total_count c + Z.of_nat (length words) /\
  (forall w, dict_get c' w =
     match dict_get c w with
     | Some n => Some (n + occurrences w words)
     | None => if decide (w ∈ words) then Some (occurrences w words) else None
     end).
Proof.
  induction words as [|w0 words IH]; intros c Hnd; cbn zeta.
  - split; [assumption|]. split; [simpl; lia|]. intros w. cbn [fold_left].
    destruct (dict_get c w); [f_equal; unfold occurrences; simpl; lia|].
    rewrite decide_False by apply not_elem_of_nil. reflexivity.
  - cbn [fold_left]. fold (counter_step c w0).
    destruct (IH (counter_step c w0)) as (Hnd' & Hsum & Hget);
      [now apply dict_setitem_NoDup|].
    split; [assumption|]. split.
    + rewrite Hsum, total_count_step. cbn [length]. lia.
    + intros w. rewrite Hget. unfold counter_step at 1.
      rewrite dict_get_setitem. unfold occurrences. cbn [count_occ].
      destruct (String.eqb_spec w0 w) as [->|Hne].
      * destruct (string_dec w w) as [_|]; [|congruence].
        destruct (dict_get c w); simpl.
        -- f_equal. lia.
        -- rewrite decide_True by left. f_equal. lia.
      * destruct (string_dec w0 w) as [|_]; [congruence|].
        destruct (dict_get c w); [reflexivity|].
        destruct (decide (w ∈ words)) as [Hin|Hnin].
        -- rewrite decide_True by now right. reflexivity.
        -- rewrite decide_False; [reflexivity|].
           intros [E|Hin]%elem_of_cons; congruence.
Qed.

Lemma dict_get_Some_elem {V} (d : dict V) k v :
  dict_get d k = Some v -> (k, v) ∈ d.
Proof.
  induction d as [|[k0 v0] d IH]; simpl; [discriminate|].
  destruct (String.eqb_spec k0 k) as [->|_].
  - intros [= ->]. left.
  - intros Hg. right. auto.
Qed.

Lemma occurrences_pos w words : 0 < occurrences w words <-> w ∈ words.
Proof.
  unfold occurrences. rewrite list_elem_of_In, (count_occ_In string_dec). lia.
Qed.

Lemma Counter_spec words :
  NoDup (dict_keys (Counter words)) /\
  total_count (Counter words) = Z.of_nat (length words) /\
  (forall w n, (w, n) ∈ Counter words <-> n = occurrences w words /\ 0 < n).
Proof.
  destruct (counter_fold words [] (NoDup_nil_2)) as (Hnd & Hsum & Hget).
  fold (Counter words) in Hnd, Hsum, Hget.
  split; [assumption|]. split; [rewrite Hsum; reflexivity|].
  intros w n. specialize (Hget w). simpl in Hget. split.
  - intros Hin. apply (dict_get_elem _ _ _ Hnd) in Hin.
    rewrite Hin in Hget. destruct (decide (w ∈ words)) as [Hw|]; [|discriminate].
    injection Hget as ->. split; [reflexivity|now apply occurrences_pos].
  - intros [-> Hpos]. apply dict_get_Some_elem. rewrite Hget.
    now rewrite decide_True by now apply occurrences_pos.
Qed.

Lemma insert_by_count_perm x l : insert_by_count x l ≡ₚ x :: l.
Proof.
  induction l as [|y l IH]; simpl; [reflexivity|].
  destruct (snd y <=? snd x); [reflexivity|].
  rewrite IH. apply Permutation_swap.
Qed.

Lemma most_common_perm c : most_common c ≡ₚ c.
Proof.
  induction c as [|x c IH]; simpl; [reflexivity|].
  now rewrite insert_by_count_perm, IH.
Qed.

Lemma insert_by_count_sorted x l :
  StronglySorted count_ge l -> StronglySorted count_ge (insert_by_count x l).
Proof.
  induction 1 as [|y l Hl IH Hy]; simpl; [repeat constructor|].
  destruct (Z.leb_spec (snd y) (snd x)) as [Hle|Hgt].
  - constructor; [now constructor|]. constructor; [exact Hle|].
    eapply Forall_impl; [exact Hy|]. unfold count_ge. intros z Hz. simpl in *. lia.
  - constructor; [exact IH|].
    rewrite insert_by_count_perm. constructor; [unfold count_ge; lia|exact Hy].
Qed.

Lemma most_common_sorted c : StronglySorted count_ge (most_common c).
Proof.
  induction c as [|x c IH]; simpl; [constructor|].
  now apply insert_by_count_sorted.
Qed.

Lemma StronglySorted_lookup {A} (R : A -> A -> Prop) (l : list A) :
  StronglySorted R l ->
  forall i j x y, (i < j)%nat -> l !! i = Some x -> l !! j = Some y -> R x y.
Proof.
  induction 1 as [|a l Hl IH Ha]; intros i j x y Hij Hi Hj.
  - now rewrite lookup_nil in Hi.
  - destruct j as [|j]; [lia|]. simpl in Hj. destruct i as [|i].
    + injection Hi as <-. rewrite Forall_forall in Ha.
      apply Ha. now apply list_elem_of_lookup_2 in Hj.
    + apply (IH i j); [lia|assumption..].
Qed.

Lemma all_words_from records : forall acc,
  fold_left (fun acc i => acc ++ str_elements (dict_values i)) records acc =
    acc ++ concat (map row_words records).
Proof.
  induction records as [|d records IH]; intros acc; simpl.
  - now rewrite app_nil_r.
  - rewrite IH. now rewrite <- app_assoc.
Qed.

Lemma all_words_concat records : all_words records = concat (map row_words records).
Proof. apply (all_words_from records []). Qed.

Lemma occurrences_rows w (records : list (dict pyobj)) :
  Forall (fun d => occurrences w (row_words d) <= 1) records ->
  occurrences w (concat (map row_words records)) =
    Z.of_nat (length (filter (fun d => w ∈ row_words d) records)).
Proof.
  unfold occurrences.
  induction 1 as [|d records Hd _ IH]; [reflexivity|].
  cbn [map concat]. rewrite count_occ_app, Nat2Z.inj_add, IH.
  rewrite filter_cons.
  pose proof (occurrences_pos w (row_words d)) as Hpos. unfold occurrences in Hpos.
  destruct (decide (w ∈ row_words d)) as [Hin|Hnin]; cbn [length].
  - apply Hpos in Hin. lia.
  - assert (~ 0 < Z.of_nat (count_occ string_dec (row_words d) w)) by tauto. lia.
Qed.

Lemma word_df_columns (tbl : list (string * Z)) (cols : list string) :
  cols = ["word"; "count"] ->
  fold_left (fun cs d => add_columns cs (dict_keys d))
    (map (fun xy => dict_setitem (dict_setitem [] "word" (PStr (fst xy)))
                                 "count" (PInt (snd xy))) tbl) cols = cols.
Proof.
  intros ->. induction tbl as [|xy tbl IH]; [reflexivity|exact IH].
Qed.

Lemma word_df_shape (tbl : list (string * Z)) :
  DataFrame_of_records
    (map (fun xy => dict_setitem (dict_setitem [] "word" (PStr (fst xy)))
                                 "count" (PInt (snd xy))) tbl) =
  {| columns := match tbl with [] => [] | _ => ["word"; "count"] end;
     rows := map word_row tbl |}.
Proof.
  unfold DataFrame_of_records. destruct tbl as [|xy tbl]; [reflexivity|].
  cbn [map fold_left]. change (add_columns [] _) with ["word"; "count"].
  rewrite word_df_columns by reflexivity. f_equal.
  change (?f xy :: map ?f tbl) with (map f (xy :: tbl)).
  rewrite map_map. reflexivity.
Qed.

Lemma get_label_counts_run self output_path s records :
  heap s !! df self = Some records ->
  let tbl := most_common (Counter (concat (map row_words records))) in
  let word_df :=
    {| columns := match tbl with [] => [] | _ => ["word"; "count"] end;
       rows := map word_row tbl |} in
  get_label_counts self output_path s =
    (Ok word_df,
     {| trace := trace s ++ [ToCsv output_path word_df]; heap := heap s |}).
Proof.
  intros Hl tbl word_df. unfold get_label_counts.
  unfold mbind at 1, Py_bind at 1, list_read at 1. rewrite Hl.
  rewrite all_words_concat, word_df_shape. reflexivity.
Qed.

End WordCounts.

Lemma total_count_perm (l1 l2 : list (string * Z)) :
  l1 ≡ₚ l2 -> total_count l1 = total_count l2.
Proof.
  unfold total_count. induction 1; simpl; lia.
Qed.

(** C3 (counterexample): two rows carry the label "dog", the first of them
    twice; the word table then has the single entry ("dog", 3) and no entry
    ("dog", 2).  The two rows are what [store_labels] makes of the label
    results [dog, dog] and [dog]. *)
Lemma dog_twice_in_one_row :
  let records :=
    [ [("label_1", PStr "dog"); ("label_2", PStr "dog");
       ("score_1", PFloat (9 # 10)); ("score_2", PFloat (8 # 10))];
      [("label_1", PStr "dog"); ("score_1", PFloat (9 # 10))] ] in
  snd (DfLabeler.store_labels Examples.lab
         [[Examples.dog; Examples.dog']; [Examples.dog]] Examples.fresh_state)
    = Examples.with_rows records /\
  length (filter (fun d => "dog" ∈ row_words d) records) = 2%nat /\
  fst (DfLabeler.get_label_counts Examples.lab "words.csv" (Examples.with_rows records))
    = Ok {| columns := ["word"; "count"]; rows := [[PStr "dog"; PInt 3]] |} /\
  [PStr "dog"; PInt 2] ∉ [[PStr "dog"; PInt 3]].
Proof.
  split; [|split; [|split]].
  - vm_compute. reflexivity.
  - vm_compute. reflexivity.
  - vm_compute. reflexivity.
  - intros [E|[]%elem_of_nil]%elem_of_cons. discriminate E.
Qed.

(** C3 (amended): [get_label_counts] never raises.  Its table has one entry
    per distinct string value of the rows of [self.df], with no word twice;
    the count of a word is the number of times it occurs among those
    values, so the counts sum to the number of string values (scores are
    not counted); the entries are in descending order of count; and when
    exactly two rows carry a word, each of them once, the table has that
    word with count 2. *)
Theorem get_label_counts_table :
  forall (self : DfLabeler.t) (output_path : string) (s : state)
         (records : list (dict pyobj)),
    heap s !! DfLabeler.df self = Some records ->
    let words := concat (map row_words records) in
    exists (tbl : list (string * Z)) (word_df : DataFrame) (s' : state),
      DfLabeler.get_label_counts self output_path s = (Ok word_df, s') /\
      rows word_df = map word_row tbl /\
      trace s' = trace s ++ [ToCsv output_path word_df] /\
      NoDup (map fst tbl) /\
      (forall w, w ∈ map fst tbl <-> w ∈ words) /\
      total_count tbl = Z.of_nat (length words) /\
      (forall i j x y, (i < j)%nat ->
         tbl !! i = Some x -> tbl !! j = Some y -> snd y <= snd x) /\
      (forall w n, (w, n) ∈ tbl <-> n = occurrences w words /\ 0 < n) /\
      (forall w,
         length (filter (fun d => w ∈ row_words d) records) = 2%nat ->
         Forall (fun d => occurrences w (row_words d) <= 1) records ->
         (w, 2) ∈ tbl).
Proof.
  intros self output_path s records Hl words.
  set (tbl := DfLabeler.most_common (DfLabeler.Counter words)).
  pose proof (most_common_perm (DfLabeler.Counter words)) as Hperm. fold tbl in Hperm.
  destruct (Counter_spec words) as (Hnd & Hsum & Hin).
  assert (Htbl : forall w n, (w, n) ∈ tbl <-> n = occurrences w words /\ 0 < n)
    by (intros w n; rewrite Hperm; apply Hin).
  exists tbl. do 2 eexists.
  split; [exact (get_label_counts_run self output_path s records Hl)|].
  split; [reflexivity|]. split; [reflexivity|].
  split; [|split; [|split; [|split; [|split]]]].
  - change (NoDup (fst <$> tbl)). rewrite Hperm. exact Hnd.
  - intros w. change (w ∈ fst <$> tbl <-> w ∈ words).
    rewrite list_elem_of_fmap, <- occurrences_pos. split.
    + intros ([w' n] & -> & Hx). apply Htbl in Hx as [-> Hx]. exact Hx.
    + intros Hpos. exists (w, occurrences w words). split; [reflexivity|].
      now apply Htbl.
  - now rewrite (total_count_perm _ _ Hperm).
  - intros i j x y Hij Hi Hj.
    exact (StronglySorted_lookup count_ge tbl (most_common_sorted _) i j x y Hij Hi Hj).
  - exact Htbl.
  - intros w Htwo Honce. apply Htbl.
    unfold words. rewrite (occurrences_rows w records Honce), Htwo. lia.
Qed.

(** Two rows that carry "dog" once each give the entry ("dog", 2). *)
Lemma get_label_counts_table_witness :
  exists (word_df : DataFrame) (s' : state),
    DfLabeler.get_label_counts Examples.lab "words.csv"
      (Examples.with_rows Examples.dog_rows)
    = (Ok word_df, s') /\
    [PStr "dog"; PInt 2] ∈ rows word_df.
Proof.
  destruct (get_label_counts_table Examples.lab "words.csv"
              (Examples.with_rows Examples.dog_rows) Examples.dog_rows eq_refl)
    as (tbl & word_df & s' & Hrun & Hrows & _ & _ & _ & _ & _ & _ & Hdog).
  exists word_df, s'. split; [exact Hrun|].
  rewrite Hrows. change [PStr "dog"; PInt 2] with (word_row ("dog", 2)).
  apply list_elem_of_fmap_2, Hdog.
  - vm_compute. reflexivity.
  - repeat constructor; vm_compute; discriminate.
Defined.

Lemma store_labels_rows_witness :
  exists (new : list (dict pyobj)) (s' : state),
    DfLabeler.store_labels Examples.lab [[Examples.dog; Examples.cat]; []]
      Examples.fresh_state = (Ok 1%positive, s') /\
    heap s' !! 1%positive = Some new /\
    length new = 2%nat.
Proof.
  destruct (store_labels_rows Examples.lab [[Examples.dog; Examples.cat]; []]
              Examples.fresh_state [] eq_refl)
    as (new & s' & Hrun & Hheap & Hlen & _).
  exists new, s'. split; [exact Hrun|]. split; [exact Hheap|exact Hlen].
Defined.

(** ** [ImageLabeler] *)

Section ImageLabelerProps.
Import ImageLabeler.
Variable W : World.

Lemma _load_image_run photo_url s :
  _load_image W photo_url s =
    match requests_get W (trace s) photo_url with
    | Ok response =>
        match types_Image W (content response) with
        | Ok image => (Ok (Some image), add_events s [HttpGet photo_url])
        | Raise err =>
            (Ok None, add_events s [HttpGet photo_url; LogErrorRetrieving photo_url err])
        end
    | Raise err =>
        (Ok None, add_events s [HttpGet photo_url; LogErrorRetrieving photo_url err])
    end.
Proof.
  unfold _load_image, py_try, mbind, Py_bind, call_requests_get, lift, add_events.
  destruct (requests_get W (trace s) photo_url) as [response|err]; cbn.
  - destruct (types_Image W (content response)) as [image|err]; cbn;
      [reflexivity|now rewrite <- app_assoc].
  - now rewrite <- app_assoc.
Qed.

Lemma add_events_add_events s evs1 evs2 :
  add_events (add_events s evs1) evs2 = add_events s (evs1 ++ evs2).
Proof. unfold add_events. cbn. now rewrite app_assoc. Qed.

Lemma _load_image_total photo_url s :
  exists image evs,
    _load_image W photo_url s = (Ok image, add_events s evs) /\
    external_calls evs = [HttpGet photo_url].
Proof.
  rewrite _load_image_run.
  destruct (requests_get W (trace s) photo_url) as [response|err];
    [destruct (types_Image W (content response)) as [image|err]|];
    eexists _, _; (split; [reflexivity|reflexivity]).
Qed.

Lemma get_label_from_image_run photo_url s image s1 :
  _load_image W photo_url s = (Ok image, s1) ->
  get_label_from_image W photo_url s =
    match client_label_detection W (trace s1) image with
    | Ok response =>
        (Ok (label_annotations response), add_events s1 [LabelDetection image])
    | Raise err =>
        (Ok [], add_events s1 [LabelDetection image; LogErrorExtracting err])
    end.
Proof.
  intros Hload. unfold get_label_from_image.
  unfold mbind at 1, Py_bind at 1. rewrite Hload.
  unfold py_try, mbind, Py_bind, call_label_detection, add_events.
  destruct (client_label_detection W (trace s1) image) as [response|err]; cbn;
    [reflexivity|now rewrite <- app_assoc].
Qed.

Lemma get_label_from_image_total photo_url s :
  exists labels image evs,
    get_label_from_image W photo_url s = (Ok labels, add_events s evs) /\
    external_calls evs = [HttpGet photo_url; LabelDetection image].
Proof.
  destruct (_load_image_total photo_url s) as (image & evs & Hload & Hcalls).
  rewrite (get_label_from_image_run _ _ _ _ Hload). cbn [trace add_events].
  unfold external_calls in *.
  destruct (client_label_detection W (trace s ++ evs) image) as [response|err];
    eexists _, image, _; rewrite add_events_add_events;
    (split; [reflexivity|]); rewrite List.filter_app, Hcalls; reflexivity.
Qed.

End ImageLabelerProps.

(** C7: [_load_image] never raises.  When the download raises, or the
    wrapping of the downloaded bytes raises, it returns [None]; when the
    download returns a response, whatever its status code, and the bytes
    wrap, it returns the wrapped image.  Only the trace changes. *)
Theorem load_image_never_raises :
  forall (W : World) (photo_url : pyobj) (s : state),
    (exists image s',
       ImageLabeler._load_image W photo_url s = (Ok image, s') /\ heap s' = heap s) /\
    (forall err,
       requests_get W (trace s) photo_url = Raise err ->
       fst (ImageLabeler._load_image W photo_url s) = Ok None) /\
    (forall response err,
       requests_get W (trace s) photo_url = Ok response ->
       types_Image W (content response) = Raise err ->
       fst (ImageLabeler._load_image W photo_url s) = Ok None) /\
    (forall status body image,
       requests_get W (trace s) photo_url =
         Ok {| status_code := status; content := body |} ->
       types_Image W body = Ok image ->
       fst (ImageLabeler._load_image W photo_url s) = Ok (Some image)).
Proof.
  intros W photo_url s. split; [|split; [|split]].
  - destruct (_load_image_total W photo_url s) as (image & evs & Hrun & _).
    now exists image, (add_events s evs).
  - intros err Hget. now rewrite _load_image_run, Hget.
  - intros response err Hget Hwrap. now rewrite _load_image_run, Hget, Hwrap.
  - intros status body image Hget Hwrap. rewrite _load_image_run, Hget. cbn.
    now rewrite Hwrap.
Qed.

(** A 404 answer is wrapped like any other; a refused connection gives
    [None] and one error record. *)
Example load_image_404 :
  ImageLabeler._load_image Examples.world (PStr "http://x/gone.jpg") Examples.fresh_state
  = (Ok (Some {| image_content := [Byte.x00] |}),
     add_events Examples.fresh_state [HttpGet (PStr "http://x/gone.jpg")]).
Proof. reflexivity. Qed.

Example load_image_offline :
  ImageLabeler._load_image Examples.offline (PStr "http://x/abc.jpg") Examples.fresh_state
  = (Ok None,
     add_events Examples.fresh_state
       [HttpGet (PStr "http://x/abc.jpg");
        LogErrorRetrieving (PStr "http://x/abc.jpg")
          (RequestException "connection refused")]).
Proof. reflexivity. Qed.

(** C5: [get_label_from_image] never raises, whatever the download and the
    classifier do.  When the classification call raises, with a null image
    or with a real one, the result is the empty list (and one error record
    is logged); when it returns, the result is the annotations of the
    response. *)
Theorem get_label_from_image_never_raises :
  forall (W : World) (photo_url : pyobj) (s : state),
    exists (image : option Image) (s1 : state),
      ImageLabeler._load_image W photo_url s = (Ok image, s1) /\
      (exists labels s', ImageLabeler.get_label_from_image W photo_url s = (Ok labels, s') /\
                         heap s' = heap s) /\
      (forall err,
         client_label_detection W (trace s1) image = Raise err ->
         ImageLabeler.get_label_from_image W photo_url s =
           (Ok [], add_events s1 [LabelDetection image; LogErrorExtracting err])) /\
      (forall response,
         client_label_detection W (trace s1) image = Ok response ->
         ImageLabeler.get_label_from_image W photo_url s =
           (Ok (label_annotations response), add_events s1 [LabelDetection image])).
Proof.
  intros W photo_url s.
  destruct (_load_image_total W photo_url s) as (image & evs & Hload & _).
  exists image, (add_events s evs). split; [exact Hload|]. split; [|split].
  - destruct (get_label_from_image_total W photo_url s) as (labels & i & evs' & Hrun & _).
    now exists labels, (add_events s evs').
  - intros err Hdet. now rewrite (get_label_from_image_run _ _ _ _ _ Hload), Hdet.
  - intros response Hdet. now rewrite (get_label_from_image_run _ _ _ _ _ Hload), Hdet.
Qed.

Example get_label_offline :
  fst (ImageLabeler.get_label_from_image Examples.offline (PStr "http://x/abc.jpg")
         Examples.fresh_state) = Ok [].
Proof. reflexivity. Qed.

(** ** [DfLabeler]: construction and labelling *)

Section Labelling.
Import ImageLabeler DfLabeler.

Lemma get_url_normalized cell : get_url cell = Ok (normalized_url cell).
Proof. destruct cell; reflexivity. Qed.

Lemma mapM_get_url cells : mapM get_url cells = Ok (map normalized_url cells).
Proof.
  induction cells as [|cell cells IH]; [reflexivity|].
  cbn [mapM map]. rewrite get_url_normalized, IH. reflexivity.
Qed.

Lemma DataFrame_getitem_length t col cells :
  DataFrame_getitem t col = Ok cells -> length cells = length (rows t).
Proof.
  unfold DataFrame_getitem. destruct (column_index col (columns t)); [|discriminate].
  intros [= <-]. apply length_map.
Qed.

Lemma __init___run data url_col url_sq s cells :
  DataFrame_getitem data url_col = Ok cells ->
  __init__ data url_col url_sq s =
    (Ok {| data_df := data;
           urls := if url_sq then map normalized_url cells else cells;
           df := fresh (dom (heap s));
           labels := [] |},
     {| trace := trace s; heap := <[fresh (dom (heap s)) := []]> (heap s) |}).
Proof.
  intros Hcol. unfold __init__, mbind, Py_bind, lift. rewrite Hcol.
  destruct url_sq; [rewrite mapM_get_url|]; reflexivity.
Qed.

Lemma add_events_nil s : add_events s [] = s.
Proof. destruct s. unfold add_events. cbn. now rewrite app_nil_r. Qed.

Variable W : World.

Lemma label_all_run urls : forall s,
  exists results images evs,
    py_listcomp (get_label_from_image W) urls s = (Ok results, add_events s evs) /\
    labelled_in_order W urls s results (add_events s evs) /\
    length results = length urls /\
    length images = length urls /\
    external_calls evs =
      concat (zip_with (fun url image => [HttpGet url; LabelDetection image]) urls images).
Proof.
  induction urls as [|url urls IH]; intros s.
  - exists [], [], []. rewrite add_events_nil. repeat split. constructor.
  - destruct (get_label_from_image_total W url s) as (r & image & evs1 & Hrun & Hcalls).
    destruct (IH (add_events s evs1)) as (rs & images & evs2 & Hrest & Hrel & Hlen & Hlen' & Hcs).
    rewrite add_events_add_events in Hrest, Hrel.
    exists (r :: rs), (image :: images), (evs1 ++ evs2). split; [|split; [|split; [|split]]].
    + cbn [py_listcomp]. unfold mbind at 1, Py_bind at 1. rewrite Hrun.
      unfold mbind at 1, Py_bind at 1. rewrite Hrest. reflexivity.
    + econstructor; eassumption.
    + cbn [length]. now rewrite Hlen.
    + cbn [length]. now rewrite Hlen'.
    + unfold external_calls in *. rewrite List.filter_app, Hcalls, Hcs. reflexivity.
Qed.

Lemma get_labels_from_df_run self s :
  let n := Z.of_nat (length (urls self)) in
  let s1 := add_events s [LogInfoLabeling n (estimated_cost n)] in
  exists results images evs,
    get_labels_from_df W self s =
      (Ok ({| data_df := data_df self; urls := urls self; df := df self;
              labels := results |}, results),
       add_events s (LogInfoLabeling n (estimated_cost n) :: evs)) /\
    labelled_in_order W (urls self) s1 results (add_events s1 evs) /\
    length results = length (urls self) /\
    length images = length (urls self) /\
    external_calls evs =
      concat (zip_with (fun url image => [HttpGet url; LabelDetection image])
                       (urls self) images).
Proof.
  intros n s1.
  destruct (label_all_run (urls self) s1) as (results & images & evs & Hrun & Hrel & Hlen).
  exists results, images, evs. split; [|split; [exact Hrel|exact Hlen]].
  unfold get_labels_from_df. unfold mbind at 1, Py_bind at 1, emit at 1.
  fold n. change {| trace := trace s ++ [LogInfoLabeling n (estimated_cost n)];
                    heap := heap s |} with s1.
  unfold mbind at 1, Py_bind at 1. rewrite Hrun.
  unfold s1. rewrite add_events_add_events. reflexivity.
Qed.

End Labelling.

(** C6: a labeler built over a table with the named URL column holds one URL
    per row, in row order: the cell itself when the thumbnail toggle is off,
    what [get_url] makes of the cell when it is on.  [get_labels_from_df]
    then returns (and stores in [self.labels]) one label result per row, in
    row order; row [i] is labelled from the state row [i-1] left behind, and
    the calls to the outside are, in this order, the download and the
    classification of row 1, then those of row 2, and so on. *)
Theorem get_labels_from_df_in_row_order :
  forall (W : World) (data : DataFrame) (url_col : string) (url_sq : bool)
         (cells : list pyobj) (s0 : state),
    DataFrame_getitem data url_col = Ok cells ->
    exists (self : DfLabeler.t) (s1 : state),
      DfLabeler.__init__ data url_col url_sq s0 = (Ok self, s1) /\
      (if url_sq
       then Forall2 (fun cell url => get_url cell = Ok url) cells (DfLabeler.urls self)
       else DfLabeler.urls self = cells) /\
      length (DfLabeler.urls self) = length (rows data) /\
      forall s : state,
      exists (self' : DfLabeler.t) (results : list (list EntityAnnotation))
             (images : list (option Image)) (info : event) (evs : list event),
        DfLabeler.get_labels_from_df W self s =
          (Ok (self', results), add_events s (info :: evs)) /\
        DfLabeler.labels self' = results /\
        length results = length (rows data) /\
        is_call info = false /\
        labelled_in_order W (DfLabeler.urls self) (add_events s [info]) results
          (add_events s (info :: evs)) /\
        length images = length (rows data) /\
        external_calls evs =
          concat (zip_with (fun url image => [HttpGet url; LabelDetection image])
                           (DfLabeler.urls self) images).
Proof.
  intros W data url_col url_sq cells s0 Hcol.
  pose proof (DataFrame_getitem_length _ _ _ Hcol) as Hlen.
  eexists _, _. split; [exact (__init___run data url_col url_sq s0 cells Hcol)|].
  cbn [DfLabeler.urls].
  assert (Hn : length (if url_sq then map normalized_url cells else cells)
               = length (rows data))
    by (destruct url_sq; [rewrite length_map|]; exact Hlen).
  split; [|split; [exact Hn|]].
  - destruct url_sq; [|reflexivity].
    clear. induction cells as [|cell cells IH]; constructor;
      [apply get_url_normalized|exact IH].
  - intros s.
    match goal with |- context [DfLabeler.get_labels_from_df W ?l s] => set (self := l) end.
    destruct (get_labels_from_df_run W self s)
      as (results & images & evs & Hrun & Hrel & Hres & Himg & Hcalls).
    rewrite add_events_add_events in Hrel. cbn [app] in Hrel.
    eexists _, results, images, _, evs. split; [exact Hrun|].
    split; [reflexivity|]. split; [now rewrite Hres|].
    split; [reflexivity|]. split; [exact Hrel|].
    split; [now rewrite Himg|exact Hcalls].
Qed.

Lemma get_labels_from_df_in_row_order_witness :
  exists (self : DfLabeler.t) (s1 : state),
    DfLabeler.__init__ Examples.photos_csv "url_sq" true Examples.fresh_state
      = (Ok self, s1) /\
    length (DfLabeler.urls self) = 2%nat.
Proof.
  destruct (get_labels_from_df_in_row_order Examples.world Examples.photos_csv
              "url_sq" true
              [PStr "http://x/abc_s.jpg"; PStr "http://x/def_s.jpg"]
              Examples.fresh_state eq_refl)
    as (self & s1 & Hinit & _ & Hlen & _).
  exists self, s1. split; [exact Hinit|exact Hlen].
Defined.

Example get_labels_from_df_two_rows :
  fst (DfLabeler.get_labels_from_df Examples.world Examples.lab Examples.fresh_state)
  = Ok ({| DfLabeler.data_df := Examples.photos_csv;
           DfLabeler.urls := [PStr "http://x/abc.jpg"; PStr "http://x/def.jpg"];
           DfLabeler.df := 1%positive;
           DfLabeler.labels := [[Examples.dog]; [Examples.dog]] |},
        [[Examples.dog]; [Examples.dog]]) /\
  external_calls
    (trace (snd (DfLabeler.get_labels_from_df Examples.world Examples.lab
                   Examples.fresh_state)))
  = [HttpGet (PStr "http://x/abc.jpg");
     LabelDetection (Some {| image_content := [Byte.x00] |});
     HttpGet (PStr "http://x/def.jpg");
     LabelDetection (Some {| image_content := [Byte.x00] |})].
Proof. split; reflexivity. Qed.

(** ** The estimated cost *)

Section Cost.
Import DfLabeler.
Local Open Scope Q_scope.

Lemma estimated_cost_thousands (n k : Z) :
  (1000 * k <= n < 1000 * k + 1000)%Z -> estimated_cost n == inject_Z k * (3 # 2).
Proof.
  intros Hk. unfold estimated_cost.
  replace (n / 1000)%Z with k; [reflexivity|].
  apply (Z.div_unique n 1000 k (n - 1000 * k)); lia.
Qed.

Lemma thousands_bounds (n : Z) :
  (1000 * (n / 1000) <= n < 1000 * (n / 1000) + 1000)%Z.
Proof.
  pose proof (Z.mul_div_le n 1000 eq_refl).
  pose proof (Z.mul_succ_div_gt n 1000 eq_refl). lia.
Qed.

Lemma estimated_cost_bounds (n : Z) :
  (3 # 2000) * inject_Z n - (3 # 2) < estimated_cost n <= (3 # 2000) * inject_Z n.
Proof.
  unfold estimated_cost. pose proof (thousands_bounds n) as Hk.
  revert Hk. generalize (n / 1000)%Z. intros k Hk.
  assert (Hlo : inject_Z (1000 * k) <= inject_Z n) by (rewrite <- Zle_Qle; lia).
  assert (Hhi : inject_Z n < inject_Z (1000 * k + 1000)) by (rewrite <- Zlt_Qlt; lia).
  rewrite inject_Z_plus, inject_Z_mult in Hhi. rewrite inject_Z_mult in Hlo.
  change (inject_Z 1000) with 1000 in *. split; lra.
Qed.

Lemma estimated_cost_not_linear :
  ~ exists rate : Q, forall n : Z, (0 <= n)%Z -> estimated_cost n == rate * inject_Z n.
Proof.
  intros [rate Hrate].
  pose proof (Hrate 1%Z ltac:(lia)) as H1.
  pose proof (Hrate 1000%Z ltac:(lia)) as H1000.
  unfold estimated_cost in H1, H1000.
  change (1 / 1000)%Z with 0%Z in H1. change (1000 / 1000)%Z with 1%Z in H1000.
  change (inject_Z 0) with 0 in H1. change (inject_Z 1) with 1 in *.
  change (inject_Z 1000) with 1000 in H1000. lra.
Qed.

End Cost.

(** C8 (counterexample): for 500 rows the reported cost is 0 and for 1000
    rows it is 1.5, which is not twice as much; no rate makes the reported
    cost that rate times the number of rows. *)
Lemma cost_not_proportional :
  (exists c evs,
     trace (snd (DfLabeler.get_labels_from_df Examples.world (Examples.lab_of 500)
                   Examples.fresh_state)) = LogInfoLabeling 500 c :: evs /\
     (c == 0)%Q) /\
  (exists c evs,
     trace (snd (DfLabeler.get_labels_from_df Examples.world (Examples.lab_of 1000)
                   Examples.fresh_state)) = LogInfoLabeling 1000 c :: evs /\
     (c == 3 # 2)%Q) /\
  ~ (3 # 2 == 2 * 0)%Q /\
  ~ exists rate : Q,
      forall n : Z, (0 <= n)%Z -> (DfLabeler.estimated_cost n == rate * inject_Z n)%Q.
Proof.
  split; [|split; [|split]].
  - destruct (get_labels_from_df_run Examples.world (Examples.lab_of 500)
                Examples.fresh_state) as (results & images & evs & Hrun & _).
    rewrite Hrun. cbn [snd trace add_events Examples.fresh_state app].
    eexists _, evs. split; [reflexivity|]. reflexivity.
  - destruct (get_labels_from_df_run Examples.world (Examples.lab_of 1000)
                Examples.fresh_state) as (results & images & evs & Hrun & _).
    rewrite Hrun. cbn [snd trace add_events Examples.fresh_state app].
    eexists _, evs. split; [reflexivity|]. reflexivity.
  - intros E. discriminate E.
  - exact estimated_cost_not_linear.
Qed.

(** C8 (amended): before any photo is fetched, [get_labels_from_df] reports
    the number [n] of rows and an estimated cost of 1.5 per complete
    thousand of rows: the cost is [1.5 * k] where [1000 k <= n < 1000 (k+1)].
    It is at most [0.0015 n] and more than [0.0015 n - 1.5]; it is
    [0.0015 n] when [n] is a multiple of 1000 and 0 below 1000 rows. *)
Theorem reported_cost_per_thousand :
  forall (W : World) (self : DfLabeler.t) (s : state),
    let n := Z.of_nat (length (DfLabeler.urls self)) in
    exists (cost : Q) (evs : list event) result,
      DfLabeler.get_labels_from_df W self s =
        (Ok result, add_events s (LogInfoLabeling n cost :: evs)) /\
      (exists k : Z,
         (1000 * k <= n < 1000 * k + 1000)%Z /\ (cost == inject_Z k * (3 # 2))%Q) /\
      ((3 # 2000) * inject_Z n - (3 # 2) < cost)%Q /\
      (cost <= (3 # 2000) * inject_Z n)%Q /\
      ((n mod 1000 = 0)%Z -> (cost == (3 # 2000) * inject_Z n)%Q) /\
      ((n < 1000)%Z -> (cost == 0)%Q).
Proof.
  intros W self s n.
  destruct (get_labels_from_df_run W self s) as (results & images & evs & Hrun & _).
  fold n in Hrun. exists (DfLabeler.estimated_cost n), evs. eexists.
  split; [exact Hrun|].
  pose proof (estimated_cost_bounds n) as [Hlo Hhi].
  split; [|split; [exact Hlo|split; [exact Hhi|split]]].
  - exists (n / 1000)%Z. split; [apply thousands_bounds|].
    apply estimated_cost_thousands, thousands_bounds.
  - intros Hmod.
    rewrite (estimated_cost_thousands n (n / 1000)) by apply thousands_bounds.
    rewrite (Z.div_mod n 1000) at 2 by discriminate. rewrite Hmod, Z.add_0_r.
    rewrite inject_Z_mult. change (inject_Z 1000) with 1000%Q. lra.
  - intros Hlt. rewrite (estimated_cost_thousands n 0) by lia. reflexivity.
Qed.

(** ** Joining the label columns onto the table *)

Section Join.
Import DfLabeler.

Lemma existsb_eqb_elem (c : string) (cs : list string) :
  existsb (String.eqb c) cs = true <-> c ∈ cs.
Proof.
  rewrite existsb_exists, list_elem_of_In. split.
  - intros (x & Hx & ->%String.eqb_eq). exact Hx.
  - intros Hc. exists c. split; [exact Hc|apply String.eqb_refl].
Qed.

Lemma add_columns_elem (keys cols : list string) (c : string) :
  c ∈ add_columns cols keys -> c ∈ cols \/ c ∈ keys.
Proof.
  unfold add_columns. revert cols.
  induction keys as [|k keys IH]; intros cols; cbn [fold_left]; [now left|].
  intros [Hc|Hc]%IH; [|right; now right].
  destruct (existsb (String.eqb k) cols); [now left|].
  apply elem_of_app in Hc as [Hc|Hc]; [now left|].
  apply list_elem_of_singleton in Hc as ->. right; left.
Qed.

Lemma DataFrame_of_records_columns (records : list (dict pyobj)) (c : string) :
  c ∈ columns (DataFrame_of_records records) ->
  exists d, d ∈ records /\ c ∈ dict_keys d.
Proof.
  unfold DataFrame_of_records. cbn [columns].
  assert (H : forall cols,
    c ∈ fold_left (fun cs d => add_columns cs (dict_keys d)) records cols ->
    c ∈ cols \/ exists d, d ∈ records /\ c ∈ dict_keys d).
  { induction records as [|d records IH]; intros cols; cbn [fold_left]; [now left|].
    intros Hc. apply IH in Hc as [Hc|(d' & Hd' & Hc)].
    - apply add_columns_elem in Hc as [Hc|Hc]; [now left|].
      right. exists d. split; [left|exact Hc].
    - right. exists d'. split; [now right|exact Hc]. }
  intros Hc. apply H in Hc as [Hc|Hc]; [|exact Hc].
  now apply elem_of_nil in Hc.
Qed.

Lemma DataFrame_join_disjoint (left right : DataFrame) :
  (forall c, c ∈ columns left -> c ∉ columns right) ->
  DataFrame_join left right =
    Ok {| columns := columns left ++ columns right;
          rows := imap (fun i r =>
                    r ++ default (replicate (length (columns right)) PNaN)
                                 (rows right !! i))
                  (rows left) |}.
Proof.
  intros Hdis. unfold DataFrame_join.
  destruct (existsb _ (columns left)) eqn:E; [|reflexivity].
  apply existsb_exists in E as (c & Hc & Hin).
  apply existsb_eqb_elem in Hin. apply list_elem_of_In in Hc.
  now destruct (Hdis c Hc).
Qed.


End Join.

(** C4 (counterexample): the table has one row and a column [label_1], the
    list has one flattened mapping with key [label_1]; [update_data_df]
    raises and writes no table. *)
Lemma update_data_df_overlap :
  let records := [[("label_1", PStr "dog"); ("score_1", PFloat (9 # 10))]] in
  length (rows (DfLabeler.data_df Examples.relabel)) = length records /\
  DfLabeler.update_data_df Examples.relabel 1%positive "labeled.csv"
    (Examples.with_rows records)
  = (Raise (ValueError "columns overlap but no suffix specified"),
     Examples.with_rows records) /\
  trace (Examples.with_rows records) = [].
Proof. repeat split. Qed.

(** C4 (amended): for every input table none of whose column names is a key
    of one of the flattened mappings, and every list of such mappings,
    [update_data_df] writes one combined table; it has exactly as many rows
    as the input table, in the same order; its columns are those of the
    input table followed by the label columns; and each of its rows is the
    input row, unchanged, followed by the cells of the mapping at the same
    position. *)
Theorem update_data_df_keeps_rows :
  forall (self : DfLabeler.t) (df : loc) (output_path : string) (s : state)
         (records : list (dict pyobj)),
    heap s !! df = Some records ->
    (forall c d, c ∈ columns (DfLabeler.data_df self) -> d ∈ records -> c ∉ dict_keys d) ->
    exists a : DataFrame,
      DfLabeler.update_data_df self df output_path s =
        (Ok tt, add_events s [ToCsv output_path a]) /\
      columns a = columns (DfLabeler.data_df self) ++
                  columns (DataFrame_of_records records) /\
      length (rows a) = length (rows (DfLabeler.data_df self)) /\
      forall (i : nat) (row : list pyobj),
        rows (DfLabeler.data_df self) !! i = Some row ->
        exists new_cells,
          rows a !! i = Some (row ++ new_cells) /\
          (forall cells, rows (DataFrame_of_records records) !! i = Some cells ->
                         new_cells = cells).
Proof.
  intros self df output_path s records Hl Hdis.
  eexists. split; [|split; [|split]].
  - unfold DfLabeler.update_data_df.
    unfold mbind at 1, Py_bind at 1, list_read at 1. rewrite Hl.
    unfold mbind at 1, Py_bind at 1, lift at 1.
    rewrite DataFrame_join_disjoint; [reflexivity|].
    intros c Hc (d & Hd & Hk)%DataFrame_of_records_columns.
    exact (Hdis c d Hc Hd Hk).
  - reflexivity.
  - cbn [rows]. apply length_imap.
  - intros i row Hi. cbn [rows]. rewrite list_lookup_imap, Hi. cbn.
    eexists. split; [reflexivity|].
    intros cells Hc. now rewrite Hc.
Qed.

Lemma update_data_df_keeps_rows_witness :
  exists a : DataFrame,
    DfLabeler.update_data_df Examples.lab 1%positive "labeled.csv"
      (Examples.with_rows Examples.dog_rows)
    = (Ok tt, add_events (Examples.with_rows Examples.dog_rows)
                [ToCsv "labeled.csv" a]) /\
    length (rows a) = 2%nat.
Proof.
  destruct (update_data_df_keeps_rows Examples.lab 1%positive "labeled.csv"
              (Examples.with_rows Examples.dog_rows) Examples.dog_rows eq_refl)
    as (a & Hrun & _ & Hlen & _).
  - intros c d Hc Hd Hk.
    cbn in Hc. unfold Examples.dog_rows in Hd.
    repeat (apply elem_of_cons in Hd as [->|Hd]);
      [| |now apply elem_of_nil in Hd];
      repeat (apply elem_of_cons in Hc as [->|Hc]);
      try (now apply elem_of_nil in Hc);
      cbn in Hk;
      repeat (apply elem_of_cons in Hk as [Hk|Hk]; [discriminate Hk|]);
      now apply elem_of_nil in Hk.
  - exists a. split; [exact Hrun|exact Hlen].
Defined.

Example update_data_df_two_rows :
  snd (DfLabeler.update_data_df Examples.lab 1%positive "labeled.csv"
         (Examples.with_rows Examples.dog_rows))
  = add_events (Examples.with_rows Examples.dog_rows)
      [ToCsv "labeled.csv"
         {| columns := ["id"; "url_sq"; "label_1"; "score_1"; "label_2"; "score_2"];
            rows := [[PInt 1; PStr "http://x/abc_s.jpg";
                      PStr "dog"; PFloat (9 # 10); PNaN; PNaN];
                     [PInt 2; PStr "http://x/def_s.jpg";
                      PStr "cat"; PFloat (7 # 10); PStr "dog"; PFloat (8 # 10)]] |}].
Proof. vm_compute. reflexivity. Qed.

(** ** The accumulator [self.df] *)

Section Accumulator.
Import DfLabeler.

Lemma word_table_elem (words : list string) (w : string) (n : Z) :
  (w, n) ∈ most_common (Counter words) <-> n = occurrences w words /\ 0 < n.
Proof.
  rewrite (most_common_perm (Counter words)).
  apply (Counter_spec words).
Qed.

Lemma word_row_elem (tbl : list (string * Z)) (w : string) (n : Z) :
  [PStr w; PInt n] ∈ map word_row tbl <-> (w, n) ∈ tbl.
Proof.
  change (map word_row tbl) with (word_row <$> tbl).
  rewrite list_elem_of_fmap. split.
  - intros ([w' n'] & E & Hin). injection E as -> ->. exact Hin.
  - intros Hin. now exists (w, n).
Qed.

Lemma __init___df_empty data url_col url_sq s0 self s :
  __init__ data url_col url_sq s0 = (Ok self, s) ->
  heap s0 !! df self = None /\ heap s !! df self = Some [].
Proof.
  destruct (DataFrame_getitem data url_col) as [cells|err] eqn:Hcol.
  - rewrite (__init___run _ _ _ _ _ Hcol). intros [= <- <-]. cbn [df heap]. split.
    + apply not_elem_of_dom, is_fresh.
    + apply lookup_insert_eq.
  - unfold __init__, mbind, Py_bind, lift. rewrite Hcol. discriminate.
Qed.

End Accumulator.

(** C10: [__init__] gives the labeler a new, empty list [self.df].
    [store_labels] appends its rows to that list and returns the list
    itself, never a copy and never after clearing it: a second call returns
    the same list, which then holds the rows that were there before, the
    rows of the first call and the rows of the second.  [get_label_counts]
    takes no list; it counts the words of all rows [self.df] holds. *)
Theorem store_labels_accumulates :
  forall (self : DfLabeler.t) (labels1 labels2 : list (list EntityAnnotation))
         (output_path : string) (s : state) (rows0 : list (dict pyobj)),
    heap s !! DfLabeler.df self = Some rows0 ->
    let rows1 := map flat_row labels1 in
    let rows2 := map flat_row labels2 in
    exists (s1 s2 s3 : state) (word_df : DataFrame),
      DfLabeler.store_labels self labels1 s = (Ok (DfLabeler.df self), s1) /\
      heap s1 !! DfLabeler.df self = Some (rows0 ++ rows1) /\
      DfLabeler.store_labels self labels2 s1 = (Ok (DfLabeler.df self), s2) /\
      heap s2 !! DfLabeler.df self = Some (rows0 ++ rows1 ++ rows2) /\
      (forall l, l <> DfLabeler.df self -> heap s2 !! l = heap s !! l) /\
      DfLabeler.get_label_counts self output_path s2 = (Ok word_df, s3) /\
      (forall w n,
         [PStr w; PInt n] ∈ rows word_df <->
         n = occurrences w (concat (map row_words (rows0 ++ rows1 ++ rows2))) /\ 0 < n) /\
      (forall data url_col url_sq s0 lab s',
         DfLabeler.__init__ data url_col url_sq s0 = (Ok lab, s') ->
         heap s0 !! DfLabeler.df lab = None /\ heap s' !! DfLabeler.df lab = Some []).
Proof.
  intros self labels1 labels2 output_path s rows0 Hl rows1 rows2.
  pose proof (store_labels_run self labels1 s rows0 Hl) as Hrun1.
  fold rows1 in Hrun1.
  set (s1 := {| trace := trace s;
                heap := <[DfLabeler.df self := rows0 ++ rows1]> (heap s) |}) in *.
  assert (Hl1 : heap s1 !! DfLabeler.df self = Some (rows0 ++ rows1))
    by apply lookup_insert_eq.
  pose proof (store_labels_run self labels2 s1 _ Hl1) as Hrun2.
  fold rows2 in Hrun2. rewrite <- app_assoc in Hrun2.
  set (s2 := {| trace := trace s1;
                heap := <[DfLabeler.df self := rows0 ++ rows1 ++ rows2]> (heap s1) |}) in *.
  assert (Hl2 : heap s2 !! DfLabeler.df self = Some (rows0 ++ rows1 ++ rows2))
    by apply lookup_insert_eq.
  pose proof (get_label_counts_run self output_path s2 _ Hl2) as Hrun3.
  cbv zeta in Hrun3.
  exists s1, s2. eexists _, _.
  split; [exact Hrun1|]. split; [exact Hl1|]. split; [exact Hrun2|].
  split; [exact Hl2|]. split; [|split; [exact Hrun3|split]].
  - intros l Hne. cbn [heap s2 s1]. now rewrite !lookup_insert_ne by congruence.
  - intros w n. cbn [rows]. rewrite word_row_elem. apply word_table_elem.
  - intros data url_col url_sq s0 lab s'. apply __init___df_empty.
Qed.

Lemma store_labels_accumulates_witness :
  exists (s1 s2 : state),
    DfLabeler.store_labels Examples.lab [[Examples.dog]] Examples.fresh_state
      = (Ok 1%positive, s1) /\
    DfLabeler.store_labels Examples.lab [[Examples.cat]; []] s1 = (Ok 1%positive, s2) /\
    heap s2 !! 1%positive
      = Some [ [("label_1", PStr "dog"); ("score_1", PFloat (9 # 10))];
               [("label_1", PStr "cat"); ("score_1", PFloat (7 # 10))];
               [] ].
Proof.
  destruct (store_labels_accumulates Examples.lab [[Examples.dog]]
              [[Examples.cat]; []] "words.csv" Examples.fresh_state [] eq_refl)
    as (s1 & s2 & s3 & word_df & Hrun1 & _ & Hrun2 & Hheap & _).
  exists s1, s2. split; [exact Hrun1|]. split; [exact Hrun2|exact Hheap].
Defined.

(** ** The whole script on the sample table *)

Example label_row_dog_cat :
  DfLabeler.label_row [Examples.dog; Examples.cat]
  = Ok [("label_1", PStr "dog"); ("label_2", PStr "cat");
        ("score_1", PFloat (9 # 10)); ("score_2", PFloat (7 # 10))].
Proof. vm_compute. reflexivity. Qed.

Example most_common_ties :
  DfLabeler.most_common (DfLabeler.Counter ["sky"; "dog"; "dog"; "sea"; "sky"; "cat"; "dog"])
  = [("dog", 3); ("sky", 2); ("sea", 1); ("cat", 1)].
Proof. reflexivity. Qed.

Example main_on_sample :
  exists s,
    main Examples.world Examples.photos_csv {| trace := []; heap := ∅ |}
    = (Ok {| columns := ["word"; "count"]; rows := [[PStr "dog"; PInt 2]] |}, s) /\
    trace s =
      [LogInfoLabeling 2 (0 # 2);
       HttpGet (PStr "http://x/abc.jpg");
       LabelDetection (Some {| image_content := [Byte.x00] |});
       HttpGet (PStr "http://x/def.jpg");
       LabelDetection (Some {| image_content := [Byte.x00] |});
       ToCsv "data/maarten_labeled.csv"
         {| columns := ["id"; "url_sq"; "label_1"; "score_1"];
            rows := [[PInt 1; PStr "http://x/abc_s.jpg"; PStr "dog"; PFloat (9 # 10)];
                     [PInt 2; PStr "http://x/def_s.jpg"; PStr "dog"; PFloat (9 # 10)]] |};
       ToCsv "data/maarten_words.csv"
         {| columns := ["word"; "count"]; rows := [[PStr "dog"; PInt 2]] |}].
Proof. eexists. split; vm_compute; reflexivity. Qed.

(** * Further properties of the script *)

(** ** [get_url] looks at the length only *)

Section Normalizer.

Lemma str_take_app p suf : str_take (String.length p) (p +:+ suf) = p.
Proof.
  induction p as [|c p IH]; [now destruct suf|].
  change (String c p +:+ suf) with (String c (p +:+ suf)).
  cbn [String.length str_take]. now rewrite IH.
Qed.

Lemma str_length_app p suf :
  String.length (p +:+ suf) = (String.length p + String.length suf)%nat.
Proof.
  induction p as [|c p IH]; [reflexivity|].
  change (String c p +:+ suf) with (String c (p +:+ suf)).
  cbn [String.length]. now rewrite IH.
Qed.

End Normalizer.

(** X1: [get_url] does not look at the suffix it removes.  Whatever the last
    six characters are, they are replaced by ".jpg"; so a URL that already
    ends in ".jpg" without "_s" loses the last two characters of its stem. *)
Theorem get_url_suffix_blind :
  forall (p suf : string),
    String.length suf = 6%nat ->
    get_url (PStr (p +:+ suf)) = Ok (PStr (p +:+ ".jpg")) /\
    forall c1 c2 : Ascii.ascii,
      get_url (PStr (p +:+ String c1 (String c2 ".jpg"))) = Ok (PStr (p +:+ ".jpg")).
Proof.
  assert (H : forall p suf, String.length suf = 6%nat ->
                get_url (PStr (p +:+ suf)) = Ok (PStr (p +:+ ".jpg"))).
  { intros p suf Hsuf. rewrite get_url_str.
    rewrite (str_slice_to_take _ _ eq_refl), str_length_app, Hsuf.
    replace (6 <=? String.length p + 6)%nat with true
      by (symmetry; apply Nat.leb_le; lia).
    replace (String.length p + 6 - 6)%nat with (String.length p) by lia.
    now rewrite str_take_app. }
  intros p suf Hsuf. split; [now apply H|].
  intros c1 c2. now apply H.
Qed.

Lemma get_url_suffix_blind_witness :
  get_url (PStr ("http://x/abc" +:+ "_b.png")) = Ok (PStr ("http://x/abc" +:+ ".jpg")) /\
  get_url (PStr ("http://x/a" +:+ "bc.jpg")) = Ok (PStr ("http://x/a" +:+ ".jpg")).
Proof.
  destruct (get_url_suffix_blind "http://x/abc" "_b.png" eq_refl) as [H1 _].
  destruct (get_url_suffix_blind "http://x/a" "_s.jpg" eq_refl) as [_ H2].
  split; [exact H1|exact (H2 (Ascii.ascii_of_nat 98) (Ascii.ascii_of_nat 99))].
Defined.

(** ** Construction of a [DfLabeler] *)

Section Construction.
Import DfLabeler.




Lemma normalized_url_shape cell :
  normalized_url cell = PStr "unknown" \/ exists p, normalized_url cell = PStr (p +:+ ".jpg").
Proof. destruct cell; cbn; eauto. Qed.

End Construction.


(** X3: with the thumbnail toggle on, every URL of the labeler is a string,
    either "unknown" or one that ends in ".jpg", whatever the cells were;
    with the toggle off the URLs are the cells of the column as they are,
    strings or not. *)
Theorem init_urls_by_toggle :
  forall (data : DataFrame) (url_col : string) (url_sq : bool) (s s' : state)
         (self : DfLabeler.t),
    DfLabeler.__init__ data url_col url_sq s = (Ok self, s') ->
    if url_sq
    then Forall (fun url => url = PStr "unknown" \/
                            exists p, url = PStr (p +:+ ".jpg")) (DfLabeler.urls self)
    else DataFrame_getitem data url_col = Ok (DfLabeler.urls self).
Proof.
  intros data url_col url_sq s s' self.
  destruct (DataFrame_getitem data url_col) as [cells|err] eqn:Hcol.
  - rewrite (__init___run _ _ _ _ _ Hcol). intros [= <- _]. cbn.
    destruct url_sq; [|reflexivity].
    apply Forall_forall. intros url (cell & -> & _)%list_elem_of_fmap.
    apply normalized_url_shape.
  - unfold DfLabeler.__init__, mbind, Py_bind, lift. rewrite Hcol. discriminate.
Qed.

Lemma init_urls_by_toggle_witness :
  Forall (fun url => url = PStr "unknown" \/ exists p, url = PStr (p +:+ ".jpg"))
    [PStr "unknown"; PStr ".jpg"].
Proof.
  exact (init_urls_by_toggle
           {| columns := ["url_sq"]; rows := [[PNaN]; [PStr ""]] |}
           "url_sq" true Examples.fresh_state _ _ eq_refl).
Defined.

(** ** What one photo costs *)

(** X4: [_load_image] makes exactly one download.  It writes an error record,
    naming the URL and the exception, exactly when it returns [None]; when
    it returns an image it writes nothing else to the trace. *)
Theorem load_image_logs_iff_none :
  forall (W : World) (photo_url : pyobj) (s : state),
    exists (image : option Image) (evs : list event),
      ImageLabeler._load_image W photo_url s = (Ok image, add_events s evs) /\
      (image = None <->
       exists err, evs = [HttpGet photo_url; LogErrorRetrieving photo_url err]) /\
      (is_Some image <-> evs = [HttpGet photo_url]).
Proof.
  intros W photo_url s. rewrite _load_image_run.
  destruct (requests_get W (trace s) photo_url) as [response|err];
    [destruct (types_Image W (content response)) as [image|err]|];
    eexists _, _; (split; [reflexivity|]); split; split.
  all: try discriminate; try (intros [? [=]]); try (intros [? [=]]%is_Some_alt);
       try reflexivity; eauto.
  all: try (intros [x Hx]; discriminate Hx).
Qed.

(** X5: a failed download does not stop the classification call: the
    classifier is still asked, with a null image, and what it answers for
    the null image is what [get_label_from_image] returns (the empty list
    only if that call raises too). *)
Theorem failed_download_still_classified :
  forall (W : World) (photo_url : pyobj) (s : state) (err : exn),
    requests_get W (trace s) photo_url = Raise err ->
    let s1 := add_events s [HttpGet photo_url; LogErrorRetrieving photo_url err] in
    ImageLabeler.get_label_from_image W photo_url s =
      match client_label_detection W (trace s1) None with
      | Ok response =>
          (Ok (label_annotations response), add_events s1 [LabelDetection None])
      | Raise err' =>
          (Ok [], add_events s1 [LabelDetection None; LogErrorExtracting err'])
      end.
Proof.
  intros W photo_url s err Hget s1.
  apply get_label_from_image_run. now rewrite _load_image_run, Hget.
Qed.

Lemma failed_download_still_classified_witness :
  external_calls
    (trace (snd (ImageLabeler.get_label_from_image Examples.offline
                   (PStr "http://x/abc.jpg") Examples.fresh_state)))
  = [HttpGet (PStr "http://x/abc.jpg"); LabelDetection None].
Proof.
  rewrite (failed_download_still_classified Examples.offline (PStr "http://x/abc.jpg")
             Examples.fresh_state (RequestException "connection refused") eq_refl).
  reflexivity.
Defined.

Section CallCount.

Lemma calls_per_row_length (urls : list pyobj) : forall images : list (option Image),
  length images = length urls ->
  length (concat (zip_with (fun url image => [HttpGet url; LabelDetection image])
                           urls images)) = (2 * length urls)%nat.
Proof.
  induction urls as [|url urls IH]; intros [|image images] Hlen;
    try discriminate Hlen; [reflexivity|].
  cbn [zip_with concat length app]. rewrite IH by (cbn in Hlen; lia). lia.
Qed.

End CallCount.

(** X6: [get_labels_from_df] never raises and touches no list object; it
    changes no attribute of the labeler but [labels], which it sets to the
    list it returns; and it makes exactly two calls to the outside per URL
    (none for an empty table), after the one cost record. *)
Theorem get_labels_from_df_frame :
  forall (W : World) (self : DfLabeler.t) (s : state),
    exists (self' : DfLabeler.t) (results : list (list EntityAnnotation))
           (info : event) (evs : list event) (s' : state),
      DfLabeler.get_labels_from_df W self s = (Ok (self', results), s') /\
      heap s' = heap s /\
      trace s' = trace s ++ info :: evs /\
      DfLabeler.data_df self' = DfLabeler.data_df self /\
      DfLabeler.urls self' = DfLabeler.urls self /\
      DfLabeler.df self' = DfLabeler.df self /\
      DfLabeler.labels self' = results /\
      length results = length (DfLabeler.urls self) /\
      is_call info = false /\
      length (external_calls evs) = (2 * length (DfLabeler.urls self))%nat.
Proof.
  intros W self s.
  destruct (get_labels_from_df_run W self s)
    as (results & images & evs & Hrun & _ & Hres & Himg & Hcalls).
  eexists _, results, _, evs, _. split; [exact Hrun|].
  cbn. repeat split; try assumption.
  rewrite Hcalls. now apply calls_per_row_length.
Qed.

(** ** Rows and label results *)

Section Rows.
Import DfLabeler.

Lemma imap_pair_values {A B} (h : nat -> string) (g : A -> B) (l : list A) :
  map snd (imap (fun i x => (h i, g x)) l) = map g l.
Proof.
  revert h. induction l as [|x l IH]; intros h; [reflexivity|].
  cbn [imap map snd]. f_equal. exact (IH (fun i => h (S i))).
Qed.

Lemma flat_row_values photos :
  dict_values (flat_row photos) =
    map (fun photo => PStr (description photo)) photos ++
    map (fun photo => PFloat (score photo)) photos.
Proof.
  unfold dict_values, flat_row. rewrite map_app.
  now rewrite (imap_pair_values (fun i => label_key (i + 1))),
              (imap_pair_values (fun i => score_key (i + 1))).
Qed.

Lemma str_elements_descriptions photos :
  str_elements (map (fun photo => PStr (description photo)) photos) = map description photos.
Proof.
  induction photos as [|p ps IH]; [reflexivity|].
  unfold str_elements in *. cbn. now rewrite IH.
Qed.

Lemma str_elements_scores photos :
  str_elements (map (fun photo => PFloat (score photo)) photos) = [].
Proof. induction photos as [|p ps IH]; [reflexivity|exact IH]. Qed.

Lemma row_words_flat_row photos : row_words (flat_row photos) = map description photos.
Proof.
  unfold row_words. rewrite flat_row_values.
  unfold str_elements at 1. rewrite omap_app.
  fold (str_elements (map (fun photo => PStr (description photo)) photos)).
  fold (str_elements (map (fun photo => PFloat (score photo)) photos)).
  now rewrite str_elements_descriptions, str_elements_scores, app_nil_r.
Qed.

Lemma flat_rows_words (labels : list (list EntityAnnotation)) :
  concat (map row_words (map flat_row labels)) = map description (concat labels).
Proof.
  induction labels as [|photos labels IH]; [reflexivity|].
  cbn [map concat]. now rewrite row_words_flat_row, IH, map_app.
Qed.

Lemma flat_row_inj photos1 photos2 : flat_row photos1 = flat_row photos2 -> photos1 = photos2.
Proof.
  intros E. pose proof (f_equal dict_values E) as Ev.
  rewrite !flat_row_values in Ev.
  assert (Hlen : length photos1 = length photos2).
  { apply (f_equal (@length _)) in Ev. rewrite !length_app, !length_map in Ev. lia. }
  apply app_inj_1 in Ev as [Hd Hs]; [|now rewrite !length_map].
  clear E. revert photos2 Hlen Hd Hs.
  induction photos1 as [|[d1 s1] photos1 IH]; intros [|[d2 s2] photos2] Hlen Hd Hs;
    try discriminate Hlen; [reflexivity|].
  cbn in Hd, Hs. injection Hd as -> Hd. injection Hs as -> Hs.
  f_equal. apply IH; [cbn in Hlen; lia|assumption..].
Qed.

End Rows.

(** X7: flattening loses nothing: two label results that [store_labels]
    would turn into the same row are the same label result. *)
Theorem label_row_injective :
  forall photos1 photos2 : list EntityAnnotation,
    DfLabeler.label_row photos1 = DfLabeler.label_row photos2 -> photos1 = photos2.
Proof.
  intros photos1 photos2. rewrite !label_row_flat. intros [= E].
  now apply flat_row_inj.
Qed.

Lemma label_row_injective_witness : [Examples.dog; Examples.cat] = [Examples.dog; Examples.cat].
Proof. exact (label_row_injective [Examples.dog; Examples.cat] _ eq_refl). Defined.

(** X8: [store_labels] over two batches one after the other leaves the same
    list as [store_labels] over the two batches joined; over no label
    results at all it changes nothing; it never writes to the trace and
    never touches another list. *)
Theorem store_labels_batches :
  forall (self : DfLabeler.t) (labels1 labels2 : list (list EntityAnnotation))
         (s : state) (rows0 : list (dict pyobj)),
    heap s !! DfLabeler.df self = Some rows0 ->
    exists s1 s2 : state,
      DfLabeler.store_labels self labels1 s = (Ok (DfLabeler.df self), s1) /\
      DfLabeler.store_labels self labels2 s1 = (Ok (DfLabeler.df self), s2) /\
      DfLabeler.store_labels self (labels1 ++ labels2) s = (Ok (DfLabeler.df self), s2) /\
      DfLabeler.store_labels self [] s = (Ok (DfLabeler.df self), s) /\
      trace s2 = trace s /\
      (forall l, l <> DfLabeler.df self -> heap s2 !! l = heap s !! l).
Proof.
  intros self labels1 labels2 s rows0 Hl.
  pose proof (store_labels_run self labels1 s rows0 Hl) as Hrun1.
  set (s1 := {| trace := trace s;
                heap := <[DfLabeler.df self := rows0 ++ map flat_row labels1]> (heap s) |})
    in *.
  assert (Hl1 : heap s1 !! DfLabeler.df self = Some (rows0 ++ map flat_row labels1))
    by apply lookup_insert_eq.
  pose proof (store_labels_run self labels2 s1 _ Hl1) as Hrun2.
  eexists s1, _. split; [exact Hrun1|]. split; [exact Hrun2|].
  split; [|split; [|split]].
  - rewrite (store_labels_run self (labels1 ++ labels2) s rows0 Hl).
    cbn [trace heap s1]. now rewrite insert_insert_eq, map_app, app_assoc.
  - rewrite (store_labels_run self [] s rows0 Hl). cbn [map].
    rewrite app_nil_r, insert_id by exact Hl. now destruct s.
  - reflexivity.
  - intros l Hne. cbn [heap s1]. now rewrite !lookup_insert_ne by congruence.
Qed.

Lemma store_labels_batches_witness :
  exists s2 : state,
    DfLabeler.store_labels Examples.lab ([[Examples.dog]] ++ [[Examples.cat]])
      Examples.fresh_state = (Ok 1%positive, s2) /\
    trace s2 = [].
Proof.
  destruct (store_labels_batches Examples.lab [[Examples.dog]] [[Examples.cat]]
              Examples.fresh_state [] eq_refl)
    as (s1 & s2 & _ & _ & Hboth & _ & Htrace & _).
  exists s2. split; [exact Hboth|exact Htrace].
Defined.

(** X9: the word table after storing: when [store_labels] has put the label
    results [labels] into an empty [self.df], [get_label_counts] lists a
    word with count [n] exactly when [n > 0] annotations of all the label
    results together have that word as description; scores never count. *)
Theorem counts_after_store :
  forall (self : DfLabeler.t) (labels : list (list EntityAnnotation))
         (output_path : string) (s : state),
    heap s !! DfLabeler.df self = Some [] ->
    exists (s1 s2 : state) (word_df : DataFrame),
      DfLabeler.store_labels self labels s = (Ok (DfLabeler.df self), s1) /\
      DfLabeler.get_label_counts self output_path s1 = (Ok word_df, s2) /\
      forall w n,
        [PStr w; PInt n] ∈ rows word_df <->
        n = occurrences w (map description (concat labels)) /\ 0 < n.
Proof.
  intros self labels output_path s Hl.
  pose proof (store_labels_run self labels s [] Hl) as Hrun1. cbn [app] in Hrun1.
  set (s1 := {| trace := trace s;
                heap := <[DfLabeler.df self := map flat_row labels]> (heap s) |}) in *.
  assert (Hl1 : heap s1 !! DfLabeler.df self = Some (map flat_row labels))
    by apply lookup_insert_eq.
  pose proof (get_label_counts_run self output_path s1 _ Hl1) as Hrun2.
  cbv zeta in Hrun2. rewrite flat_rows_words in Hrun2.
  eexists s1, _, _. split; [exact Hrun1|]. split; [exact Hrun2|].
  intros w n. cbn [rows]. rewrite word_row_elem. apply word_table_elem.
Qed.

Lemma counts_after_store_witness :
  exists (s1 s2 : state) (word_df : DataFrame),
    DfLabeler.store_labels Examples.lab [[Examples.dog; Examples.cat]; [Examples.dog']]
      Examples.fresh_state = (Ok 1%positive, s1) /\
    DfLabeler.get_label_counts Examples.lab "words.csv" s1 = (Ok word_df, s2) /\
    [PStr "dog"; PInt 2] ∈ rows word_df.
Proof.
  destruct (counts_after_store Examples.lab [[Examples.dog; Examples.cat]; [Examples.dog']]
              "words.csv" Examples.fresh_state eq_refl)
    as (s1 & s2 & word_df & Hrun1 & Hrun2 & Hrows).
  exists s1, s2, word_df. split; [exact Hrun1|]. split; [exact Hrun2|].
  apply Hrows. split; [reflexivity|reflexivity].
Defined.

(** ** The order of the word table *)

Section Stability.
Import DfLabeler.

Lemma insert_by_count_filter (n : Z) x l :
  filter (fun y : string * Z => snd y = n) (insert_by_count x l) =
  filter (fun y : string * Z => snd y = n) (x :: l).
Proof.
  induction l as [|y l IH]; [reflexivity|]. cbn [insert_by_count].
  destruct (Z.leb_spec (snd y) (snd x)) as [Hle|Hgt]; [reflexivity|].
  rewrite filter_cons, IH, !filter_cons.
  destruct (decide (snd y = n)) as [Hy|Hy]; [|reflexivity].
  destruct (decide (snd x = n)) as [Hx|Hx]; [lia|reflexivity].
Qed.

Lemma most_common_filter (n : Z) (c : dict Z) :
  filter (fun y : string * Z => snd y = n) (most_common c) =
  filter (fun y : string * Z => snd y = n) c.
Proof.
  induction c as [|x c IH]; [reflexivity|].
  cbn [most_common fold_right]. fold (most_common c).
  now rewrite insert_by_count_filter, !filter_cons, IH.
Qed.

Lemma Counter_keys_elem words w : w ∈ dict_keys (Counter words) <-> w ∈ words.
Proof.
  destruct (Counter_spec words) as (_ & _ & Hin).
  unfold dict_keys. change (map fst ?l) with (fst <$> l).
  rewrite list_elem_of_fmap, <- occurrences_pos. split.
  - intros ([w' n] & -> & Hx). now apply Hin in Hx as [-> Hx].
  - intros Hpos. exists (w, occurrences w words). split; [reflexivity|].
    now apply Hin.
Qed.

Lemma Counter_snoc words w : Counter (words ++ [w]) = counter_step (Counter words) w.
Proof. unfold Counter. now rewrite fold_left_app. Qed.

End Stability.

(** X10: the sort of [most_common] is stable and [Counter] remembers words
    in order of first sight: the entries of the word table that have one
    given count stand in the order in which [Counter] holds them, and a
    word joins the keys of [Counter], at the end, when it is first seen. *)
Theorem most_common_stable :
  forall (words : list string) (w : string) (n : Z),
    filter (fun y : string * Z => snd y = n)
           (DfLabeler.most_common (DfLabeler.Counter words)) =
    filter (fun y : string * Z => snd y = n) (DfLabeler.Counter words) /\
    dict_keys (DfLabeler.Counter (words ++ [w])) =
    dict_keys (DfLabeler.Counter words) ++ (if decide (w ∈ words) then [] else [w]).
Proof.
  intros words w n. split; [apply most_common_filter|].
  rewrite Counter_snoc. unfold DfLabeler.counter_step. rewrite dict_keys_setitem.
  destruct (decide (w ∈ words)) as [Hin|Hnin].
  - rewrite bool_decide_eq_true_2 by now apply Counter_keys_elem.
    now rewrite app_nil_r.
  - rewrite bool_decide_eq_false_2; [reflexivity|].
    now rewrite Counter_keys_elem.
Qed.

(** ** The tables written *)

Section Tables.
Import DfLabeler.

Lemma add_columns_keeps (keys cols : list string) (c : string) :
  c ∈ cols -> c ∈ add_columns cols keys.
Proof.
  unfold add_columns. revert cols.
  induction keys as [|k keys IH]; intros cols Hc; cbn [fold_left]; [exact Hc|].
  apply IH. destruct (existsb (String.eqb k) cols); [exact Hc|].
  apply elem_of_app. now left.
Qed.

Lemma add_columns_adds (keys cols : list string) (c : string) :
  c ∈ keys -> c ∈ add_columns cols keys.
Proof.
  revert cols. induction keys as [|k keys IH]; intros cols Hc;
    [now apply elem_of_nil in Hc|].
  apply elem_of_cons in Hc as [->|Hc].
  - unfold add_columns. cbn [fold_left]. apply add_columns_keeps.
    destruct (existsb (String.eqb k) cols) eqn:E.
    + now apply existsb_eqb_elem.
    + apply elem_of_app. right. left.
  - unfold add_columns. cbn [fold_left]. now apply IH.
Qed.

Lemma add_columns_NoDup (keys cols : list string) :
  NoDup cols -> NoDup (add_columns cols keys).
Proof.
  unfold add_columns. revert cols.
  induction keys as [|k keys IH]; intros cols Hnd; cbn [fold_left]; [exact Hnd|].
  apply IH. destruct (existsb (String.eqb k) cols) eqn:E; [exact Hnd|].
  apply NoDup_app. split; [exact Hnd|]. split; [|apply NoDup_singleton].
  intros x Hx Hk. apply list_elem_of_singleton in Hk as ->.
  apply existsb_eqb_elem in Hx. congruence.
Qed.

Lemma fold_add_columns_keeps (records : list (dict pyobj)) : forall cols c,
  c ∈ cols -> c ∈ fold_left (fun cs d => add_columns cs (dict_keys d)) records cols.
Proof.
  induction records as [|d records IH]; intros cols c Hc; cbn [fold_left]; [exact Hc|].
  now apply IH, add_columns_keeps.
Qed.

Lemma DataFrame_of_records_has_key (records : list (dict pyobj)) d c :
  d ∈ records -> c ∈ dict_keys d -> c ∈ columns (DataFrame_of_records records).
Proof.
  unfold DataFrame_of_records. cbn [columns]. generalize (@nil string).
  induction records as [|d' records IH]; intros cols Hd Hc;
    [now apply elem_of_nil in Hd|].
  cbn [fold_left]. apply elem_of_cons in Hd as [->|Hd].
  - now apply fold_add_columns_keeps, add_columns_adds.
  - now apply IH.
Qed.

Lemma DataFrame_of_records_NoDup (records : list (dict pyobj)) :
  NoDup (columns (DataFrame_of_records records)).
Proof.
  unfold DataFrame_of_records. cbn [columns].
  assert (H : forall cols, NoDup cols ->
            NoDup (fold_left (fun cs d => add_columns cs (dict_keys d)) records cols)).
  { induction records as [|d records IH]; intros cols Hnd; cbn [fold_left]; [exact Hnd|].
    now apply IH, add_columns_NoDup. }
  apply H, NoDup_nil_2.
Qed.


End Tables.



(** X12: the label columns of the table built from stored rows are jagged
    by design: no column name repeats, and a column [label_i] (and
    [score_i]) is there exactly when some label result has at least [i]
    labels. *)
Theorem label_columns_of_stored_rows :
  forall (labels : list (list EntityAnnotation)) (c : string),
    NoDup (columns (DataFrame_of_records (map flat_row labels))) /\
    (c ∈ columns (DataFrame_of_records (map flat_row labels)) <->
     exists photos i,
       photos ∈ labels /\ (1 <= i <= length photos)%nat /\
       (c = label_key i \/ c = score_key i)).
Proof.
  intros labels c. split; [apply DataFrame_of_records_NoDup|]. split.
  - intros (d & Hd & Hk)%DataFrame_of_records_columns.
    change (map flat_row labels) with (flat_row <$> labels) in Hd.
    apply list_elem_of_fmap in Hd as (photos & -> & Hp).
    rewrite flat_row_keys in Hk. exists photos.
    apply elem_of_app in Hk as [Hk|Hk];
      change (map ?f ?l) with (f <$> l) in Hk;
      apply list_elem_of_fmap in Hk as (i & -> & Hi);
      apply elem_of_seq in Hi; exists i; (split; [exact Hp|split; [lia|auto]]).
  - intros (photos & i & Hp & Hi & Hc).
    apply (DataFrame_of_records_has_key _ (flat_row photos)).
    + change (map flat_row labels) with (flat_row <$> labels).
      now apply list_elem_of_fmap_2.
    + rewrite flat_row_keys. apply elem_of_app.
      destruct Hc as [-> | ->]; [left|right];
        change (map ?f ?l) with (f <$> l);
        apply list_elem_of_fmap_2, elem_of_seq; lia.
Qed.

Section EmptyTable.
Import DfLabeler.

Lemma Counter_nil_iff words : Counter words = [] <-> words = [].
Proof.
  split; [|now intros ->].
  intros E. destruct (Counter_spec words) as (_ & Hsum & _).
  rewrite E in Hsum. cbn in Hsum. destruct words; [reflexivity|discriminate Hsum].
Qed.

Lemma most_common_nil_iff (c : dict Z) : most_common c = [] <-> c = [].
Proof.
  split; [|now intros ->].
  intros E. pose proof (most_common_perm c) as Hp. rewrite E in Hp.
  now apply Permutation_nil in Hp.
Qed.

Lemma concat_row_words_nil (records : list (dict pyobj)) :
  concat (map row_words records) = [] <-> Forall (fun d => row_words d = []) records.
Proof.
  induction records as [|d records IH]; cbn [map concat].
  - split; [constructor|reflexivity].
  - rewrite Forall_cons, <- IH. split.
    + intros E. now apply app_eq_nil in E.
    + intros [-> ->]. reflexivity.
Qed.

End EmptyTable.

(** X13: [get_label_counts] only reads [self.df] and writes one file.  When
    no row has a string value (as right after [__init__], or when every
    label result was empty) the table written has no row and no column at
    all, not even the headers; otherwise its columns are [word] and
    [count] and every row has these two cells. *)
Theorem get_label_counts_headers :
  forall (self : DfLabeler.t) (output_path : string) (s : state)
         (records : list (dict pyobj)),
    heap s !! DfLabeler.df self = Some records ->
    exists word_df : DataFrame,
      DfLabeler.get_label_counts self output_path s =
        (Ok word_df, add_events s [ToCsv output_path word_df]) /\
      (Forall (fun d => row_words d = []) records ->
       word_df = {| columns := []; rows := [] |}) /\
      (~ Forall (fun d => row_words d = []) records ->
       columns word_df = ["word"; "count"] /\
       rows word_df <> [] /\
       Forall (fun r => length r = 2%nat) (rows word_df)).
Proof.
  intros self output_path s records Hl.
  eexists. split; [exact (get_label_counts_run self output_path s records Hl)|].
  rewrite <- concat_row_words_nil.
  set (words := concat (map row_words records)).
  destruct (DfLabeler.most_common (DfLabeler.Counter words)) as [|x tbl] eqn:E.
  - split; [reflexivity|]. intros Hne. destruct Hne.
    now apply most_common_nil_iff, Counter_nil_iff in E.
  - split.
    + intros Hw. rewrite Hw in E. discriminate E.
    + intros _. cbn [columns rows]. split; [reflexivity|]. split; [discriminate|].
      apply Forall_forall. intros r (xy & -> & _)%list_elem_of_fmap. reflexivity.
Qed.

Lemma get_label_counts_headers_witness :
  exists word_df : DataFrame,
    DfLabeler.get_label_counts Examples.lab "words.csv" Examples.fresh_state =
      (Ok word_df, add_events Examples.fresh_state [ToCsv "words.csv" word_df]) /\
    word_df = {| columns := []; rows := [] |}.
Proof.
  destruct (get_label_counts_headers Examples.lab "words.csv" Examples.fresh_state []
              eq_refl) as (word_df & Hrun & Hempty & _).
  exists word_df. split; [exact Hrun|]. apply Hempty. constructor.
Defined.

(** ** The script as a whole *)

Section Script.
Import DfLabeler.


Lemma join_rows_keep (left right : DataFrame) a :
  DataFrame_join left right = Ok a ->
  length (rows a) = length (rows left) /\
  forall i row, rows left !! i = Some row -> exists cells, rows a !! i = Some (row ++ cells).
Proof.
  unfold DataFrame_join. destruct (existsb _ (columns left)); [discriminate|].
  intros [= <-]. cbn [rows]. split; [apply length_imap|].
  intros i row Hi. rewrite list_lookup_imap, Hi. cbn. eauto.
Qed.

End Script.


